(** * AllSensors_DLV: frame decoding and calibration pipeline

    A shallow embedding of [src/AllSensors_DLV.h] and [src/AllSensors_DLV.cpp],
    the Arduino driver for the AllSensors DLV pressure sensors, followed by
    the properties the specification states about it.

    - C++ [float] is IEEE-754 binary32, modelled by [spec_float] with the
      operations of [SpecFloat] at precision 24 and maximal exponent 128.
    - C++ [double] depends on the tool chain: avr-gcc makes it binary32, the
      ARM, ESP and host tool chains make it binary64.  Every function that
      evaluates a [double] sub-expression takes the format as a parameter.
    - [uint8_t] and [uint16_t] are [Z] with the wrap-around written out.
    - the unscoped enumerations are their underlying integers. *)

From Stdlib Require Import ZArith Bool List Lia QArith Qabs.
From Stdlib Require Import Floats.SpecFloat.
Import ListNotations.

Local Open Scope Z_scope.

(** ** Floating-point formats *)

Module FP.

Record format : Type := Format { prec : Z; emax : Z }.

Definition binary32 : format := Format 24 128.
Definition binary64 : format := Format 53 1024.

(** The two meanings of C++ [double] among the supported boards. *)
Variant double_format : Type :=
| Double32   (* avr-gcc: double is a synonym of float *)
| Double64.  (* IEEE binary64 *)

Definition dfmt (d : double_format) : format :=
  match d with
  | Double32 => binary32
  | Double64 => binary64
  end.

Definition is_finite (x : spec_float) : bool :=
  match x with
  | S754_zero _ | S754_finite _ _ _ => true
  | S754_infinity _ | S754_nan => false
  end.

Definition is_zero (x : spec_float) : bool :=
  match x with
  | S754_zero _ => true
  | _ => false
  end.

Section Ops.
Variable f : format.

Definition valid (x : spec_float) : bool := valid_binary (prec f) (emax f) x.

(** Integer to floating-point conversion, round to nearest even. *)
Definition of_Z (z : Z) : spec_float :=
  binary_normalize (prec f) (emax f) z 0 false.

Definition add : spec_float -> spec_float -> spec_float := SFadd (prec f) (emax f).
Definition sub : spec_float -> spec_float -> spec_float := SFsub (prec f) (emax f).
Definition mul : spec_float -> spec_float -> spec_float := SFmul (prec f) (emax f).
Definition div : spec_float -> spec_float -> spec_float := SFdiv (prec f) (emax f).

(** The correctly rounded value of the fraction [n / d]: how the compiler
    reads a decimal literal such as [273.15 = 27315 / 100]. *)
Definition of_ratio (n d : positive) : spec_float :=
  let '(mz, ez, lz) := SFdiv_core_binary (prec f) (emax f) (Zpos n) 0 (Zpos d) 0 in
  binary_round_aux (prec f) (emax f) false mz ez lz.

(** Conversion to this format with rounding (a narrowing conversion, or
    the identity on the values of the format). *)
Definition round (x : spec_float) : spec_float :=
  match x with
  | S754_finite s m e => binary_normalize (prec f) (emax f) (cond_Zopp s (Zpos m)) e s
  | _ => x
  end.

(** Exact conversion from a format whose values this one contains (the
    promotion of [float] to [double]): the mantissa is only re-aligned
    to the exponent the target format wants, no digit is dropped. *)
Definition promote (x : spec_float) : spec_float :=
  match x with
  | S754_finite s m e =>
      let '(m', e') :=
        shl_align m e (fexp (prec f) (emax f) (Zpos (digits2_pos m) + e)) in
      S754_finite s m' e'
  | _ => x
  end.
End Ops.

(** The exact rational value of a finite number. *)
Definition to_Q (x : spec_float) : option Q :=
  match x with
  | S754_zero _ => Some 0%Q
  | S754_finite s m e =>
      let n := cond_Zopp s (Zpos m) in
      Some (match e with
            | Zneg k => Qmake n (2 ^ k)
            | _ => Qmake (n * 2 ^ e) 1
            end)
  | _ => None
  end.

(** [x] is finite and its value is the rational [q]. *)
Definition exactly (x : spec_float) (q : Q) : Prop :=
  exists v : Q, to_Q x = Some v /\ (v == q)%Q.

(** [x] is finite and within half a unit in its last place of [q]. *)
Definition nearest (x : spec_float) (q : Q) : bool :=
  match x, to_Q x with
  | S754_finite _ _ e, Some v =>
      Qle_bool (Qabs (v - q))
               (match (e - 1)%Z with
                | Zneg k => Qmake 1 (2 ^ k)
                | h => Qmake (2 ^ h) 1
                end)
  | _, _ => false
  end.

(** Structural equality, as a boolean. *)
Definition same (x y : spec_float) : bool :=
  match x, y with
  | S754_zero s, S754_zero s' => Bool.eqb s s'
  | S754_infinity s, S754_infinity s' => Bool.eqb s s'
  | S754_nan, S754_nan => true
  | S754_finite s m e, S754_finite s' m' e' =>
      Bool.eqb s s' && Pos.eqb m m' && Z.eqb e e'
  | _, _ => false
  end.

End FP.

(** ** The arithmetic of the C++ expressions

    The usual arithmetic conversions are written out: an operation with a
    [double] operand is a [double] operation on the promoted operands, an
    operation on [float] and integer operands is a [float] operation. *)

Module Cxx.

Definition float : Type := spec_float.   (* binary32 *)
Definition double : Type := spec_float.  (* in the format of the tool chain *)

Definition f_of_int : Z -> float := FP.of_Z FP.binary32.
Definition f_sub : float -> float -> float := FP.sub FP.binary32.
Definition f_mul : float -> float -> float := FP.mul FP.binary32.
Definition f_div : float -> float -> float := FP.div FP.binary32.
Definition to_float : double -> float := FP.round FP.binary32.

Section Double.
Variable dbl : FP.double_format.

Definition to_double : float -> double := FP.promote (FP.dfmt dbl).
Definition d_add : double -> double -> double := FP.add (FP.dfmt dbl).
Definition d_sub : double -> double -> double := FP.sub (FP.dfmt dbl).
Definition d_mul : double -> double -> double := FP.mul (FP.dfmt dbl).
Definition d_div : double -> double -> double := FP.div (FP.dfmt dbl).
Definition d_of_int : Z -> double := FP.of_Z (FP.dfmt dbl).

(** The decimal literal [m * 10^-k], of type [double]. *)
Definition dec (m : positive) (k : nat) : double :=
  FP.of_ratio (FP.dfmt dbl) m (Nat.iter k (Pos.mul 10) 1%positive).
End Double.

End Cxx.

(** ** The two-wire bus

    [TwoWire] is the Arduino Wire library, which is not part of the driver.
    The driver uses three of its methods; the class below is that interface
    with the bus object threaded through.  The driver drops what
    [requestFrom] and [endTransmission] return, so they return the bus only. *)

Class TwoWire (B : Type) : Type := {
  requestFrom : Z -> Z -> B -> B;      (* address, quantity *)
  read : B -> Z * B;                   (* an int: the next byte, or -1 *)
  endTransmission : B -> B
}.

(** A bus that replays a fixed script of bytes, as a device that answers
    every request: [requestFrom] moves up to [quantity] bytes of the script
    into the receive buffer, [read] takes them one at a time and answers -1
    once the buffer is empty. *)
Module ScriptedBus.

Record t : Type := Bus { script : list Z; rx : list Z }.

Definition requestFrom (address quantity : Z) (b : t) : t :=
  Bus (skipn (Z.to_nat quantity) (script b)) (firstn (Z.to_nat quantity) (script b)).

Definition read (b : t) : Z * t :=
  match rx b with
  | [] => (-1, b)
  | x :: r => (x, Bus (script b) r)
  end.

Definition endTransmission (b : t) : t := b.

Definition of_script (l : list Z) : t := Bus l [].

End ScriptedBus.

#[export] Instance ScriptedBus_TwoWire : TwoWire ScriptedBus.t := {
  requestFrom := ScriptedBus.requestFrom;
  read := ScriptedBus.read;
  endTransmission := ScriptedBus.endTransmission
}.

(** ** Machine integers *)

Definition uint8 (z : Z) : Z := z mod 2 ^ 8.
Definition uint16 (z : Z) : Z := z mod 2 ^ 16.

Definition is_uint8 (z : Z) : Prop := 0 <= z < 256.

(** [uint8_t raw_data[4]]: four cells, read and written by index. *)
Record uint8x4 : Type := Array4 { cell0 : Z; cell1 : Z; cell2 : Z; cell3 : Z }.

Definition get (a : uint8x4) (i : Z) : Z :=
  match i with
  | 0 => cell0 a
  | 1 => cell1 a
  | 2 => cell2 a
  | _ => cell3 a
  end.

(** A store converts the value to [uint8_t]; the only indices the driver
    uses are 0 to 3. *)
Definition set (a : uint8x4) (i : Z) (v : Z) : uint8x4 :=
  match i with
  | 0 => Array4 (uint8 v) (cell1 a) (cell2 a) (cell3 a)
  | 1 => Array4 (cell0 a) (uint8 v) (cell2 a) (cell3 a)
  | 2 => Array4 (cell0 a) (cell1 a) (uint8 v) (cell3 a)
  | 3 => Array4 (cell0 a) (cell1 a) (cell2 a) (uint8 v)
  | _ => a
  end.

Definition is_frame (a : uint8x4) : Prop :=
  is_uint8 (cell0 a) /\ is_uint8 (cell1 a) /\ is_uint8 (cell2 a) /\ is_uint8 (cell3 a).

(** ** The driver *)

Module AllSensors_DLV.

Import Cxx.

(** The default I2C address from the datasheet. *)
Definition I2C_ADDRESS : Z := 0x28.

Variant SensorType : Type := GAGE | DIFFERENTIAL | ABSOLUTE.

(** The enumerators' values, ['G'], ['D'] and ['A']. *)
Definition SensorType_value (t : SensorType) : Z :=
  match t with
  | GAGE => 71
  | DIFFERENTIAL => 68
  | ABSOLUTE => 65
  end.

Definition Status : Type := Z.
Definition CURRENT : Status := 0.
Definition RESERVED : Status := 1.
Definition STALE_DATA : Status := 2.
Definition ERROR : Status := 3.

(** A variable of an unscoped enumeration holds any value of the
    underlying integer type, so the unit selectors are integers. *)
Definition PressureUnit : Type := Z.
Definition PSI : PressureUnit := 76.     (* 'L' *)
Definition IN_H2O : PressureUnit := 72.  (* 'H' *)
Definition PASCAL : PressureUnit := 80.  (* 'P' *)

Definition TemperatureUnit : Type := Z.
Definition CELCIUS : TemperatureUnit := 67.     (* 'C' *)
Definition FAHRENHEIT : TemperatureUnit := 70.  (* 'F' *)
Definition KELVIN : TemperatureUnit := 75.      (* 'K' *)

Definition READ_LENGTH : Z := 4.

Definition FULL_SCALE_REF : Z := uint16 (Z.shiftl (uint16 1) 14).

(** The object.  The [bus] pointer is not a field here: the bus it points
    to is threaded through [readData].  The three public members have no
    initialiser and the constructor does not assign them, so they hold
    [None] until the first acquisition. *)
Record object : Type := Object {
  type : SensorType;
  raw_data : uint8x4;
  raw_p : Z;
  raw_t : Z;
  pressure_max : float;
  pressure_range : float;
  pressure_zero_ref : float;
  pressure_unit : PressureUnit;
  temperature_unit : TemperatureUnit;
  status : option Status;
  pressure : option float;
  temperature : option float
}.

(** [AllSensors_DLV::AllSensors_DLV].  [SensorType] has exactly the three
    enumerators: with any other value the switch assigns nothing and the
    two calibration members stay indeterminate. *)
Definition AllSensors_DLV (type : SensorType) (pressure_max : float) : object :=
  let '(pressure_zero_ref, pressure_range) :=
    match type with
    | GAGE | ABSOLUTE => (f_of_int 1638, pressure_max)
    | DIFFERENTIAL => (f_of_int 8192, f_mul pressure_max (f_of_int 2))
    end in
  {| type := type;
     raw_data := Array4 0 0 0 0;
     raw_p := 0;
     raw_t := 0;
     pressure_max := pressure_max;
     pressure_range := pressure_range;
     pressure_zero_ref := pressure_zero_ref;
     pressure_unit := PSI;
     temperature_unit := CELCIUS;
     status := None;
     pressure := None;
     temperature := None |}.

(** Extract the 2-bit status field. *)
Definition extractStatus (this : object) : Status :=
  Z.shiftr (Z.land (get (raw_data this) 0) 0xC0) 6.

(** Extract the 14-bit pressure field. *)
Definition extractIntegerPressure (this : object) : Z :=
  uint16 (Z.lor (Z.shiftl (uint16 (Z.land (get (raw_data this) 0) 0x3F)) 8)
                (uint16 (get (raw_data this) 1))).

(** Extract the 11-bit temperature field. *)
Definition extractIntegerTemperature (this : object) : Z :=
  uint16 (Z.lor (Z.shiftl (uint16 (get (raw_data this) 2)) 3)
                (Z.shiftr (uint16 (Z.land (get (raw_data this) 3) 0xE0)) 5)).

(** Assignments to the members, one function per member the code assigns. *)
Definition set_raw_data (v : uint8x4) (this : object) : object :=
  let '(Object ty _ rp rt pm pr pz pu tu st p t) := this in
  Object ty v rp rt pm pr pz pu tu st p t.

Definition set_raw_p (v : Z) (this : object) : object :=
  let '(Object ty rd _ rt pm pr pz pu tu st p t) := this in
  Object ty rd v rt pm pr pz pu tu st p t.

Definition set_raw_t (v : Z) (this : object) : object :=
  let '(Object ty rd rp _ pm pr pz pu tu st p t) := this in
  Object ty rd rp v pm pr pz pu tu st p t.

Definition set_status (v : Status) (this : object) : object :=
  let '(Object ty rd rp rt pm pr pz pu tu _ p t) := this in
  Object ty rd rp rt pm pr pz pu tu (Some v) p t.

Definition set_pressure (v : float) (this : object) : object :=
  let '(Object ty rd rp rt pm pr pz pu tu st _ t) := this in
  Object ty rd rp rt pm pr pz pu tu st (Some v) t.

Definition set_temperature (v : float) (this : object) : object :=
  let '(Object ty rd rp rt pm pr pz pu tu st p _) := this in
  Object ty rd rp rt pm pr pz pu tu st p (Some v).

(** Set the configured pressure unit for data output. *)
Definition setPressureUnit (this : object) (pressure_unit : PressureUnit) : object :=
  let '(Object ty rd rp rt pm pr pz _ tu st p t) := this in
  Object ty rd rp rt pm pr pz pressure_unit tu st p t.

(** Set the configured temperature unit for data output. *)
Definition setTemperatureUnit (this : object) (temperature_unit : TemperatureUnit) : object :=
  let '(Object ty rd rp rt pm pr pz pu _ st p t) := this in
  Object ty rd rp rt pm pr pz pu temperature_unit st p t.

(** [status == Status::ERROR], on a member that has been assigned. *)
Definition status_is (c : Status) (this : object) : bool :=
  match status this with
  | Some st => st =? c
  | None => false
  end.

Section Calibration.
(** What [double] is on the board. *)
Variable dbl : FP.double_format.

(** Convert a raw digital pressure read from the sensor to a floating
    point value in PSI.  The subtraction and the division are [float]
    operations; the literal [1.25] makes both products [double]; the
    return converts to [float].  [raw_value] is an [unsigned long] that
    the only caller fills from a [uint16_t]. *)
Definition transferPressure (this : object) (raw_value : Z) : float :=
  to_float
    (d_mul dbl
       (d_mul dbl (dec dbl 125 2)
          (to_double dbl
             (f_div (f_sub (f_of_int raw_value) (pressure_zero_ref this))
                    (f_of_int FULL_SCALE_REF))))
       (to_double dbl (pressure_range this))).

(** Convert a raw digital temperature read from the sensor to a floating
    point value in Celcius. *)
Definition transferTemperature (this : object) (raw_value : Z) : float :=
  to_float
    (d_sub dbl
       (d_mul dbl (to_double dbl (f_of_int raw_value))
              (d_div dbl (dec dbl 2000 1) (dec dbl 20470 1)))
       (dec dbl 500 1)).

(** Convert the input in PSI to the configured pressure output unit. *)
Definition convertPressure (this : object) (psi : float) : float :=
  if pressure_unit this =? PASCAL then
    to_float (d_mul dbl (to_double dbl psi) (dec dbl 689475729 5))
  else if pressure_unit this =? IN_H2O then
    to_float (d_mul dbl (to_double dbl psi) (dec dbl 27679904 6))
  else (* case PSI: default: *)
    psi.

(** Convert the input in Celcius to the configured temperature output unit. *)
Definition convertTemperature (this : object) (degree_c : float) : float :=
  if temperature_unit this =? FAHRENHEIT then
    to_float (d_add dbl (d_mul dbl (to_double dbl degree_c) (dec dbl 18 1)) (dec dbl 320 1))
  else if temperature_unit this =? KELVIN then
    to_float (d_add dbl (to_double dbl degree_c) (dec dbl 27315 2))
  else (* case CELCIUS: default: *)
    degree_c.

Context {B : Type} {W : TwoWire B}.

(** [for (int i = 0; i < READ_LENGTH; i++) raw_data[i] = bus->read();]
    with [n] the number of iterations still allowed. *)
Fixpoint read_loop (n : nat) (i : Z) (raw : uint8x4) (bus : B) : uint8x4 * B :=
  match n with
  | O => (raw, bus)
  | S n' =>
      if i <? READ_LENGTH then
        let '(v, bus) := read bus in
        read_loop n' (i + 1) (set raw i v) bus
      else (raw, bus)
  end.

(** [AllSensors_DLV::readData], statement by statement: the result, the
    object and the bus after the call. *)
Definition readData (this : object) (bus : B) : bool * object * B :=
  let bus := requestFrom I2C_ADDRESS (uint8 READ_LENGTH) bus in
  let '(raw, bus) := read_loop (Z.to_nat READ_LENGTH) 0 (raw_data this) bus in
  let this := set_raw_data raw this in
  let bus := endTransmission bus in
  let this := set_status (extractStatus this) this in
  let this := set_raw_p (extractIntegerPressure this) this in
  let this := set_raw_t (extractIntegerTemperature this) this in
  let this := set_pressure (convertPressure this (transferPressure this (raw_p this))) this in
  let this := set_temperature (convertTemperature this (transferTemperature this (raw_t this))) this in
  (status_is ERROR this, this, bus).

End Calibration.

(** The pre-configured models, by part number.  Each passes its rating as
    a literal such as [5.0], which the [float] parameter holds exactly. *)
Definition AllSensors_DLV_005D : object := AllSensors_DLV DIFFERENTIAL (f_of_int 5).
Definition AllSensors_DLV_030D : object := AllSensors_DLV DIFFERENTIAL (f_of_int 30).
Definition AllSensors_DLV_060D : object := AllSensors_DLV DIFFERENTIAL (f_of_int 60).
Definition AllSensors_DLV_005G : object := AllSensors_DLV GAGE (f_of_int 5).
Definition AllSensors_DLV_015G : object := AllSensors_DLV GAGE (f_of_int 15).
Definition AllSensors_DLV_030G : object := AllSensors_DLV GAGE (f_of_int 30).
Definition AllSensors_DLV_060G : object := AllSensors_DLV GAGE (f_of_int 60).
Definition AllSensors_DLV_015A : object := AllSensors_DLV ABSOLUTE (f_of_int 15).
Definition AllSensors_DLV_030A : object := AllSensors_DLV ABSOLUTE (f_of_int 30).

End AllSensors_DLV.

(** ** The specification's formulas

    The definitions of this module follow the words of the specification,
    not the code: the frame layout of its section 4.1, the transfer
    functions of 4.2 and the conversion tables of 4.3.  The formulas are
    evaluated in [double] on integer codes and delivered as [float]. *)

Module Spec.

Import Cxx.

Variant PressureUnit : Type := PSI | IN_H2O | PASCAL.
Variant TemperatureUnit : Type := CELSIUS | FAHRENHEIT | KELVIN.

Definition zeroReferenceCode (t : AllSensors_DLV.SensorType) : Z :=
  match t with
  | AllSensors_DLV.GAGE | AllSensors_DLV.ABSOLUTE => 1638
  | AllSensors_DLV.DIFFERENTIAL => 8192
  end.

Definition fullScaleSpan (t : AllSensors_DLV.SensorType) (pressureMaxRating : float) : float :=
  match t with
  | AllSensors_DLV.GAGE | AllSensors_DLV.ABSOLUTE => pressureMaxRating
  | AllSensors_DLV.DIFFERENTIAL => f_mul (f_of_int 2) pressureMaxRating
  end.

(** [statusCode = (byte0 >> 6) & 0b11] *)
Definition statusCode (byte0 : Z) : Z := Z.land (Z.shiftr byte0 6) 3.

(** [pressureCode = ((byte0 & 0b00111111) << 8) | byte1] *)
Definition pressureCode (byte0 byte1 : Z) : Z :=
  Z.lor (Z.shiftl (Z.land byte0 0x3F) 8) byte1.

(** [temperatureCode = (byte2 << 3) | ((byte3 & 0b11100000) >> 5)] *)
Definition temperatureCode (byte2 byte3 : Z) : Z :=
  Z.lor (Z.shiftl byte2 3) (Z.shiftr (Z.land byte3 0xE0) 5).

Definition decode (frame : uint8x4) : Z * Z * Z :=
  (statusCode (cell0 frame),
   pressureCode (cell0 frame) (cell1 frame),
   temperatureCode (cell2 frame) (cell3 frame)).

Section Formulas.
Variable dbl : FP.double_format.

(** [1.25 * ((pressureCode - zeroReferenceCode) / 16384.0) * fullScaleSpan] *)
Definition pressurePSI (pressureCode zeroReferenceCode : Z) (fullScaleSpan : float) : float :=
  to_float
    (d_mul dbl
       (d_mul dbl (dec dbl 125 2)
          (d_div dbl (d_of_int dbl (pressureCode - zeroReferenceCode)) (dec dbl 163840 1)))
       (to_double dbl fullScaleSpan)).

(** [temperatureCode * (200.0 / 2047.0) - 50.0] *)
Definition temperatureC (temperatureCode : Z) : float :=
  to_float
    (d_sub dbl
       (d_mul dbl (d_of_int dbl temperatureCode) (d_div dbl (dec dbl 2000 1) (dec dbl 20470 1)))
       (dec dbl 500 1)).

Definition convertPressure (u : PressureUnit) (psi : float) : float :=
  match u with
  | PSI => psi
  | IN_H2O => to_float (d_mul dbl (to_double dbl psi) (dec dbl 27679904 6))
  | PASCAL => to_float (d_mul dbl (to_double dbl psi) (dec dbl 689475729 5))
  end.

Definition convertTemperature (u : TemperatureUnit) (c : float) : float :=
  match u with
  | CELSIUS => c
  | FAHRENHEIT => to_float (d_add dbl (d_mul dbl (to_double dbl c) (dec dbl 18 1)) (dec dbl 320 1))
  | KELVIN => to_float (d_add dbl (to_double dbl c) (dec dbl 27315 2))
  end.

End Formulas.

(** The selector value the driver uses for each unit of the tables. *)
Definition pressure_selector (u : PressureUnit) : AllSensors_DLV.PressureUnit :=
  match u with
  | PSI => AllSensors_DLV.PSI
  | IN_H2O => AllSensors_DLV.IN_H2O
  | PASCAL => AllSensors_DLV.PASCAL
  end.

Definition temperature_selector (u : TemperatureUnit) : AllSensors_DLV.TemperatureUnit :=
  match u with
  | CELSIUS => AllSensors_DLV.CELCIUS
  | FAHRENHEIT => AllSensors_DLV.FAHRENHEIT
  | KELVIN => AllSensors_DLV.KELVIN
  end.

End Spec.

(** ** Bounded checks by evaluation *)

Fixpoint forall_from (n : nat) (z : Z) (P : Z -> bool) : bool :=
  match n with
  | O => true
  | S k => P z && forall_from k (z + 1) P
  end.

(** [P] holds of 0, 1, ..., n - 1. *)
Definition forall_below (n : Z) (P : Z -> bool) : bool :=
  forall_from (Z.to_nat n) 0 P.

(** A normal number of format [f] whose exponent can be lowered by 14
    without leaving the normal range. *)
Definition lowers_by_14 (f : FP.format) (m : positive) (e : Z) : bool :=
  (Zpos (digits2_pos m) =? FP.prec f)
  && (3 - FP.emax f - FP.prec f <=? e - 15)
  && (e - 14 <=? FP.emax f - FP.prec f).

(** The [float] difference of [transferPressure] and the [double] of the
    integer difference of the specification, compared at one code: both
    are zero, or both are normal and agree once their exponents are lowered
    by 14, which is what the division by 16384 does to them.  [z] is the
    [float] of the zero reference code, evaluated once. *)
Definition fraction_test (dbl : FP.double_format) (zeroReferenceCode : Z)
           (z : Cxx.float) (code : Z) : bool :=
  match Cxx.f_sub (Cxx.f_of_int code) z, Cxx.d_of_int dbl (code - zeroReferenceCode) with
  | S754_zero sx, S754_zero sy => Bool.eqb sx sy
  | S754_finite sx mx ex, S754_finite sy my ey =>
      lowers_by_14 FP.binary32 mx ex
      && lowers_by_14 (FP.dfmt dbl) my ey
      && FP.same (Cxx.to_double dbl (S754_finite sx mx (ex - 14)))
                 (S754_finite sy my (ey - 14))
  | _, _ => false
  end.

(** The promoted [float] of a code is the [double] of the code. *)
Definition promotion_test (dbl : FP.double_format) (code : Z) : bool :=
  FP.same (Cxx.to_double dbl (Cxx.f_of_int code)) (Cxx.d_of_int dbl code).

(** The decimal literals of the driver and of the formulas, as mantissa and
    number of decimals: 1.25, 200.0, 2047.0, 50.0, 16384.0, 6894.75729,
    27.679904, 1.8, 32.0 and 273.15. *)
Definition literals : list (positive * nat) :=
  [(125%positive, 2%nat); (2000%positive, 1%nat); (20470%positive, 1%nat);
   (500%positive, 1%nat); (163840%positive, 1%nat); (689475729%positive, 5%nat);
   (27679904%positive, 6%nat); (18%positive, 1%nat); (320%positive, 1%nat);
   (27315%positive, 2%nat)].


(** The largest power of two among the [float] values, 2^127. *)
Definition two_pow_127 : Cxx.float := S754_finite false 8388608 104.

(** ** Use of the driver over time *)

Module Session.

Import Cxx AllSensors_DLV.

(** The public operations on a constructed object. *)
Variant operation : Type :=
| ReadData
| SetPressureUnit (u : PressureUnit)
| SetTemperatureUnit (u : TemperatureUnit).

(** The three decoded fields of the frame an object holds. *)
Definition decoded (this : object) : Z * Z * Z :=
  (extractStatus this, extractIntegerPressure this, extractIntegerTemperature this).

Section Run.
Variable dbl : FP.double_format.
Context {B : Type} {W : TwoWire B}.

(** What [readData] does to the object once the frame has arrived. *)
Definition store_reading (frame : uint8x4) (this : object) : object :=
  let this := set_raw_data frame this in
  let this := set_status (extractStatus this) this in
  let this := set_raw_p (extractIntegerPressure this) this in
  let this := set_raw_t (extractIntegerTemperature this) this in
  let this := set_pressure (convertPressure dbl this (transferPressure dbl this (raw_p this))) this in
  set_temperature (convertTemperature dbl this (transferTemperature dbl this (raw_t this))) this.

Definition step (st : object * B) (op : operation) : object * B :=
  match op with
  | ReadData => let '(_, this, bus) := readData dbl (fst st) (snd st) in (this, bus)
  | SetPressureUnit u => (setPressureUnit (fst st) u, snd st)
  | SetTemperatureUnit u => (setTemperatureUnit (fst st) u, snd st)
  end.

Definition run (ops : list operation) (st : object * B) : object * B :=
  fold_left step ops st.

(** The four bytes one transaction of [readData] stores, whatever the
    buffer held before. *)
Definition frame_of (bus : B) : uint8x4 :=
  fst (read_loop (Z.to_nat READ_LENGTH) 0 (Array4 0 0 0 0)
         (requestFrom I2C_ADDRESS (uint8 READ_LENGTH) bus)).

End Run.

End Session.

(** The checks the decoder lemmas run on all bytes: the [uint16_t] casts
    of the masked bytes change nothing, and the masked bytes are small. *)
Definition low6_check (b : Z) : bool :=
  (uint16 (Z.land b 0x3F) =? Z.land b 0x3F) && (0 <=? Z.land b 0x3F) && (Z.land b 0x3F <=? 63).

Definition high3_check (b : Z) : bool :=
  (Z.shiftr (uint16 (Z.land b 0xE0)) 5 =? Z.shiftr (Z.land b 0xE0) 5)
  && (0 <=? Z.shiftr (Z.land b 0xE0) 5) && (Z.shiftr (Z.land b 0xE0) 5 <=? 7).

(** ** Notions for the properties of the whole driver *)

(** The buffer and the codes an object holds agree: the buffer holds bytes,
    [raw_p] and [raw_t] are the codes of the buffer and lie in their ranges,
    and the three public members are either all unassigned or all assigned,
    the status being the one of the buffer. *)
Definition coherent (this : AllSensors_DLV.object) : Prop :=
  is_frame (AllSensors_DLV.raw_data this)
  /\ AllSensors_DLV.raw_p this = AllSensors_DLV.extractIntegerPressure this
  /\ AllSensors_DLV.raw_t this = AllSensors_DLV.extractIntegerTemperature this
  /\ 0 <= AllSensors_DLV.raw_p this <= 16383
  /\ 0 <= AllSensors_DLV.raw_t this <= 2047
  /\ ((AllSensors_DLV.status this = None
       /\ AllSensors_DLV.pressure this = None
       /\ AllSensors_DLV.temperature this = None)
      \/ (AllSensors_DLV.status this = Some (AllSensors_DLV.extractStatus this)
          /\ AllSensors_DLV.pressure this <> None
          /\ AllSensors_DLV.temperature this <> None)).

(** The unit selectors a sequence of operations leaves, from the ones it
    starts with: the argument of the last call of each setter. *)
Definition last_pressure_unit (ops : list Session.operation)
           (u0 : AllSensors_DLV.PressureUnit) : AllSensors_DLV.PressureUnit :=
  fold_left (fun u op => match op with Session.SetPressureUnit u' => u' | _ => u end) ops u0.

Definition last_temperature_unit (ops : list Session.operation)
           (u0 : AllSensors_DLV.TemperatureUnit) : AllSensors_DLV.TemperatureUnit :=
  fold_left (fun u op => match op with Session.SetTemperatureUnit u' => u' | _ => u end) ops u0.

(** ** Notions for the properties of the arithmetic *)

Definition is_nan (x : spec_float) : bool :=
  match x with
  | S754_nan => true
  | _ => false
  end.

(** [x] is a number, possibly a zero or an infinity, with sign bit [s]. *)
Definition signed (s : bool) (x : spec_float) : bool :=
  match x with
  | S754_nan => false
  | S754_zero s' | S754_infinity s' | S754_finite s' _ _ => Bool.eqb s s'
  end.

(** Both are finite and the value of [x] is below the value of [y]. *)
Definition value_lt (x y : spec_float) : Prop :=
  exists u v : Q, FP.to_Q x = Some u /\ FP.to_Q y = Some v /\ (u < v)%Q.

(** The product of 1.25 and the quotient of [transferPressure] at one code,
    from the [double] of the integer difference with its exponent lowered
    by 14: it is a finite number, not zero, negative exactly below the zero
    reference code.  [k] is the literal 1.25, evaluated once. *)
Definition factor_test (dbl : FP.double_format) (zeroReferenceCode : Z)
           (k : Cxx.double) (code : Z) : bool :=
  match Cxx.d_of_int dbl (code - zeroReferenceCode) with
  | S754_zero _ => code =? zeroReferenceCode
  | S754_finite s m e =>
      negb (code =? zeroReferenceCode)
      && lowers_by_14 (FP.dfmt dbl) m e
      && match Cxx.d_mul dbl k (S754_finite s m (e - 14)) with
         | S754_finite s' _ _ => Bool.eqb s' (code <? zeroReferenceCode)
         | _ => false
         end
  | _ => false
  end.

(** The temperature of the formula at one code, as a rational number.  [k]
    is the quotient 200.0 / 2047.0 and [c] the literal 50.0, evaluated
    once. *)
Definition temperature_value (dbl : FP.double_format) (k c : Cxx.double) (code : Z)
  : option Q :=
  FP.to_Q (Cxx.to_float (Cxx.d_sub dbl (Cxx.d_mul dbl (Cxx.d_of_int dbl code) k) c)).

(** The temperature at [code] is below the temperature at [code + 1]. *)
Definition temperature_step_test (dbl : FP.double_format) (k c : Cxx.double) (code : Z)
  : bool :=
  match temperature_value dbl k c code, temperature_value dbl k c (code + 1) with
  | Some u, Some v => negb (Qle_bool v u)
  | _, _ => false
  end.

(** Neither stored physical value is a NaN. *)
Definition numbers_only (this : AllSensors_DLV.object) : Prop :=
  (forall p, AllSensors_DLV.pressure this = Some p -> is_nan p = false)
  /\ (forall t, AllSensors_DLV.temperature this = Some t -> is_nan t = false).

(** The calibration members are those of a sensor of type [T] with a
    finite span. *)
Definition calibrated (T : AllSensors_DLV.SensorType) (this : AllSensors_DLV.object) : Prop :=
  AllSensors_DLV.pressure_zero_ref this = Cxx.f_of_int (Spec.zeroReferenceCode T)
  /\ FP.is_finite (AllSensors_DLV.pressure_range this) = true.

(** * Properties *)

(** ** Helper lemmas *)

Lemma forall_from_spec (n : nat) (P : Z -> bool) :
  forall z, forall_from n z P = true ->
  forall x, z <= x < z + Z.of_nat n -> P x = true.
Proof.
  induction n as [|k IH]; intros z H x Hx.
  - simpl in Hx. lia.
  - cbn [forall_from] in H. apply andb_true_iff in H. destruct H as [Hz Hrest].
    destruct (Z.eq_dec x z) as [->|Hne]; [assumption|].
    apply (IH (z + 1)); [assumption|lia].
Qed.

Lemma forall_below_spec (n : Z) (P : Z -> bool) :
  forall_below n P = true -> forall z, 0 <= z < n -> P z = true.
Proof.
  intros H z Hz. apply (forall_from_spec _ P 0 H). lia.
Qed.

Lemma forall_byte (P : Z -> bool) :
  forall_below 256 P = true -> forall b, is_uint8 b -> P b = true.
Proof.
  intros H b Hb. apply (forall_below_spec 256 P H). exact Hb.
Qed.

Lemma uint8_is_uint8 (z : Z) : is_uint8 (uint8 z).
Proof. unfold is_uint8, uint8. apply Z.mod_pos_bound. reflexivity. Qed.

Lemma uint8_id (z : Z) : is_uint8 z -> uint8 z = z.
Proof. unfold is_uint8, uint8. intros H. apply Z.mod_small. simpl. lia. Qed.

Lemma same_eq (x y : spec_float) : FP.same x y = true -> x = y.
Proof.
  destruct x as [s|s| |s m e], y as [s'|s'| |s' m' e']; simpl; try discriminate;
    try reflexivity.
  - intros H. apply eqb_prop in H. now subst.
  - intros H. apply eqb_prop in H. now subst.
  - intros H. apply andb_true_iff in H. destruct H as [H He].
    apply andb_true_iff in H. destruct H as [Hs Hm].
    apply eqb_prop in Hs. apply Pos.eqb_eq in Hm. apply Z.eqb_eq in He. now subst.
Qed.

(** The decimal literals of the driver are read to a nearest number of the
    format, for both meanings of [double]. *)
Lemma literals_nearest (dbl : FP.double_format) :
  forallb (fun '(m, k) =>
             FP.nearest (Cxx.dec dbl m k) (Zpos m # Nat.iter k (Pos.mul 10) 1%positive))
          literals = true.
Proof. destruct dbl; vm_compute; reflexivity. Qed.

Module DecoderFacts.

Import AllSensors_DLV.

(** The status expression of the code and the one of the specification
    agree on every integer, not only on bytes. *)
Lemma status_mask_then_shift (b : Z) :
  Z.shiftr (Z.land b 0xC0) 6 = Z.land (Z.shiftr b 6) 3.
Proof. rewrite Z.shiftr_land. reflexivity. Qed.

Lemma status_range (b : Z) : 0 <= Z.land (Z.shiftr b 6) 3 <= 3.
Proof.
  change (Z.land (Z.shiftr b 6) 3) with (Z.land (Z.shiftr b 6) (Z.ones 2)).
  rewrite Z.land_ones by lia.
  pose proof (Z.mod_pos_bound (Z.shiftr b 6) (2 ^ 2) eq_refl) as H.
  change (2 ^ 2) with 4 in *. lia.
Qed.

Lemma low6_byte (b : Z) : is_uint8 b -> low6_check b = true.
Proof. apply forall_byte. vm_compute. reflexivity. Qed.

Lemma high3_byte (b : Z) : is_uint8 b -> high3_check b = true.
Proof. apply forall_byte. vm_compute. reflexivity. Qed.

Lemma uint16_small (z : Z) : 0 <= z < 65536 -> uint16 z = z.
Proof. intros H. unfold uint16. apply Z.mod_small. simpl. lia. Qed.

(** The two operands of each [|] are non-negative, so the result is at most
    their sum. *)
Lemma lor_le_add (a b : Z) : 0 <= a -> 0 <= b -> 0 <= Z.lor a b <= a + b.
Proof.
  intros Ha Hb. split.
  - apply Z.lor_nonneg. split; assumption.
  - pose proof (Z.add_lor_land a b) as Hsum.
    assert (0 <= Z.land a b) by (apply Z.land_nonneg; left; assumption).
    lia.
Qed.

Lemma pressure_bytes (b0 b1 : Z) :
  is_uint8 b0 -> is_uint8 b1 ->
  uint16 (Z.lor (Z.shiftl (uint16 (Z.land b0 0x3F)) 8) (uint16 b1)) = Spec.pressureCode b0 b1
  /\ 0 <= Spec.pressureCode b0 b1 <= 16383.
Proof.
  intros H0 H1. unfold is_uint8 in H1.
  pose proof (low6_byte b0 H0) as Hlow. unfold low6_check in Hlow.
  apply andb_true_iff in Hlow. destruct Hlow as [Hlow Hhi].
  apply andb_true_iff in Hlow. destruct Hlow as [Hcast Hlo].
  apply Z.eqb_eq in Hcast. apply Z.leb_le in Hlo, Hhi.
  rewrite Hcast, (uint16_small b1) by lia.
  fold (Spec.pressureCode b0 b1).
  assert (Hrange : 0 <= Spec.pressureCode b0 b1 <= 16383).
  { unfold Spec.pressureCode.
    pose proof (lor_le_add (Z.shiftl (Z.land b0 0x3F) 8) b1) as Hle.
    rewrite Z.shiftl_mul_pow2 in * by lia. change (2 ^ 8) with 256 in *. lia. }
  split; [apply uint16_small; lia|exact Hrange].
Qed.

Lemma temperature_bytes (b2 b3 : Z) :
  is_uint8 b2 -> is_uint8 b3 ->
  uint16 (Z.lor (Z.shiftl (uint16 b2) 3) (Z.shiftr (uint16 (Z.land b3 0xE0)) 5))
  = Spec.temperatureCode b2 b3
  /\ 0 <= Spec.temperatureCode b2 b3 <= 2047.
Proof.
  intros H2 H3. unfold is_uint8 in H2.
  pose proof (high3_byte b3 H3) as Hhigh. unfold high3_check in Hhigh.
  apply andb_true_iff in Hhigh. destruct Hhigh as [Hhigh Hhi].
  apply andb_true_iff in Hhigh. destruct Hhigh as [Hcast Hlo].
  apply Z.eqb_eq in Hcast. apply Z.leb_le in Hlo, Hhi.
  rewrite Hcast, (uint16_small b2) by lia.
  fold (Spec.temperatureCode b2 b3).
  assert (Hrange : 0 <= Spec.temperatureCode b2 b3 <= 2047).
  { unfold Spec.temperatureCode.
    pose proof (lor_le_add (Z.shiftl b2 3) (Z.shiftr (Z.land b3 0xE0) 5)) as Hle.
    rewrite Z.shiftl_mul_pow2 in * by lia. change (2 ^ 3) with 8 in *. lia. }
  split; [apply uint16_small; lia|exact Hrange].
Qed.

Lemma raw_data_set_raw_data (f : uint8x4) (this : object) :
  raw_data (set_raw_data f this) = f.
Proof. destruct this; reflexivity. Qed.

Lemma extractStatus_frame (this : object) :
  extractStatus this = Spec.statusCode (cell0 (raw_data this)).
Proof. unfold extractStatus, Spec.statusCode. simpl. apply status_mask_then_shift. Qed.

Lemma extractIntegerPressure_frame (this : object) :
  is_frame (raw_data this) ->
  extractIntegerPressure this = Spec.pressureCode (cell0 (raw_data this)) (cell1 (raw_data this))
  /\ 0 <= extractIntegerPressure this <= 16383.
Proof.
  intros (H0 & H1 & _). destruct (pressure_bytes _ _ H0 H1) as [Heq Hrange].
  unfold extractIntegerPressure. cbn [get]. rewrite Heq. split; [reflexivity|exact Hrange].
Qed.

Lemma extractIntegerTemperature_frame (this : object) :
  is_frame (raw_data this) ->
  extractIntegerTemperature this
  = Spec.temperatureCode (cell2 (raw_data this)) (cell3 (raw_data this))
  /\ 0 <= extractIntegerTemperature this <= 2047.
Proof.
  intros (_ & _ & H2 & H3). destruct (temperature_bytes _ _ H2 H3) as [Heq Hrange].
  unfold extractIntegerTemperature. cbn [get]. rewrite Heq. split; [reflexivity|exact Hrange].
Qed.

End DecoderFacts.

Import Cxx AllSensors_DLV Session.

(** ** The frame decoder *)

(** C2. For every 4-byte frame the decoder extracts
    statusCode = (byte0 >> 6) & 0b11,
    pressureCode = ((byte0 & 0b00111111) << 8) | byte1 and
    temperatureCode = (byte2 << 3) | ((byte3 & 0b11100000) >> 5);
    the frame C0 00 00 00 decodes to (3, 0, 0) and the frame 3F FF FF E0
    decodes to (0, 16383, 2047). *)
Theorem decoder_extracts_fields :
  forall (this : object) (byte0 byte1 byte2 byte3 : Z),
    is_frame (Array4 byte0 byte1 byte2 byte3) ->
    decoded (set_raw_data (Array4 byte0 byte1 byte2 byte3) this)
    = Spec.decode (Array4 byte0 byte1 byte2 byte3)
    /\ decoded (set_raw_data (Array4 0xC0 0x00 0x00 0x00) this) = (ERROR, 0, 0)
    /\ decoded (set_raw_data (Array4 0x3F 0xFF 0xFF 0xE0) this) = (0, 16383, 2047).
Proof.
  intros this b0 b1 b2 b3 Hf. split; [|split].
  - unfold decoded.
    assert (Hraw : is_frame (raw_data (set_raw_data (Array4 b0 b1 b2 b3) this)))
      by (rewrite DecoderFacts.raw_data_set_raw_data; exact Hf).
    destruct (DecoderFacts.extractIntegerPressure_frame _ Hraw) as [Hp _].
    destruct (DecoderFacts.extractIntegerTemperature_frame _ Hraw) as [Ht _].
    rewrite DecoderFacts.extractStatus_frame, Hp, Ht.
    rewrite DecoderFacts.raw_data_set_raw_data. reflexivity.
  - destruct this; reflexivity.
  - destruct this; reflexivity.
Qed.

Lemma decoder_extracts_fields_witness :
  decoded (set_raw_data (Array4 0xA5 0x5A 0x81 0x7F) AllSensors_DLV_015A) = (2, 9562, 1035).
Proof.
  destruct (decoder_extracts_fields AllSensors_DLV_015A 0xA5 0x5A 0x81 0x7F) as [H _].
  - unfold is_frame, is_uint8; simpl; lia.
  - rewrite H. reflexivity.
Defined.

(** C8. The decoder is total: every 4-byte frame decodes to a triple, with
    statusCode in {0, 1, 2, 3}, pressureCode in [0, 16383] and
    temperatureCode in [0, 2047]. *)
Theorem decoder_total_in_range :
  forall (this : object) (byte0 byte1 byte2 byte3 : Z),
    is_frame (Array4 byte0 byte1 byte2 byte3) ->
    exists statusCode pressureCode temperatureCode : Z,
      decoded (set_raw_data (Array4 byte0 byte1 byte2 byte3) this)
      = (statusCode, pressureCode, temperatureCode)
      /\ (statusCode = CURRENT \/ statusCode = RESERVED
          \/ statusCode = STALE_DATA \/ statusCode = ERROR)
      /\ 0 <= pressureCode <= 16383
      /\ 0 <= temperatureCode <= 2047.
Proof.
  intros this b0 b1 b2 b3 Hf.
  set (o := set_raw_data (Array4 b0 b1 b2 b3) this).
  assert (Hraw : is_frame (raw_data o))
    by (unfold o; rewrite DecoderFacts.raw_data_set_raw_data; exact Hf).
  exists (extractStatus o), (extractIntegerPressure o), (extractIntegerTemperature o).
  split; [reflexivity|]. split; [|split].
  - rewrite DecoderFacts.extractStatus_frame. unfold Spec.statusCode.
    pose proof (DecoderFacts.status_range (cell0 (raw_data o))) as H.
    unfold CURRENT, RESERVED, STALE_DATA, ERROR. lia.
  - apply DecoderFacts.extractIntegerPressure_frame; assumption.
  - apply DecoderFacts.extractIntegerTemperature_frame; assumption.
Qed.

Lemma decoder_total_in_range_witness :
  exists statusCode pressureCode temperatureCode : Z,
    decoded (set_raw_data (Array4 0xFF 0xFF 0xFF 0xFF) AllSensors_DLV_030G)
    = (statusCode, pressureCode, temperatureCode)
    /\ (statusCode = CURRENT \/ statusCode = RESERVED
        \/ statusCode = STALE_DATA \/ statusCode = ERROR)
    /\ 0 <= pressureCode <= 16383
    /\ 0 <= temperatureCode <= 2047.
Proof.
  apply (decoder_total_in_range AllSensors_DLV_030G 0xFF 0xFF 0xFF 0xFF).
  unfold is_frame, is_uint8; simpl; lia.
Defined.

(** ** Acquisition *)

Section Acquisition.
Variable dbl : FP.double_format.
Context {B : Type} {W : TwoWire B}.

Lemma read_loop_unrolled (raw : uint8x4) (bus : B) :
  read_loop (Z.to_nat READ_LENGTH) 0 raw bus
  = let '(v0, bus1) := read bus in
    let '(v1, bus2) := read bus1 in
    let '(v2, bus3) := read bus2 in
    let '(v3, bus4) := read bus3 in
    (Array4 (uint8 v0) (uint8 v1) (uint8 v2) (uint8 v3), bus4).
Proof.
  change (Z.to_nat READ_LENGTH) with 4%nat. unfold READ_LENGTH.
  cbn [read_loop Z.ltb Z.compare Pos.compare Pos.compare_cont Z.add Pos.add Pos.succ].
  destruct (read bus) as [v0 bus1]. destruct (read bus1) as [v1 bus2].
  destruct (read bus2) as [v2 bus3]. destruct (read bus3) as [v3 bus4].
  reflexivity.
Qed.

(** The loop overwrites all four cells: what it leaves does not depend on
    what the buffer held. *)
Lemma read_loop_overwrites (raw raw' : uint8x4) (bus : B) :
  read_loop (Z.to_nat READ_LENGTH) 0 raw bus = read_loop (Z.to_nat READ_LENGTH) 0 raw' bus.
Proof. rewrite !read_loop_unrolled. reflexivity. Qed.

Lemma frame_of_is_frame (bus : B) : is_frame (frame_of bus).
Proof.
  unfold frame_of. rewrite read_loop_unrolled.
  destruct (read _) as [v0 bus1]. destruct (read bus1) as [v1 bus2].
  destruct (read bus2) as [v2 bus3]. destruct (read bus3) as [v3 bus4].
  repeat split; apply uint8_is_uint8.
Qed.

Lemma readData_store_reading (this : object) (bus : B) :
  fst (readData dbl this bus)
  = (status_is ERROR (store_reading dbl (frame_of bus) this),
     store_reading dbl (frame_of bus) this).
Proof.
  unfold readData, frame_of.
  rewrite (read_loop_overwrites (raw_data this) (Array4 0 0 0 0)).
  destruct (read_loop _ _ _ _) as [raw bus']. reflexivity.
Qed.

Lemma store_reading_fields (f : uint8x4) (this : object) :
  let this' := store_reading dbl f this in
  let held := set_raw_data f this in
  raw_data this' = f
  /\ status this' = Some (extractStatus held)
  /\ raw_p this' = extractIntegerPressure held
  /\ raw_t this' = extractIntegerTemperature held
  /\ pressure this'
     = Some (convertPressure dbl this (transferPressure dbl this (extractIntegerPressure held)))
  /\ temperature this'
     = Some (convertTemperature dbl this
               (transferTemperature dbl this (extractIntegerTemperature held)))
  /\ pressure_zero_ref this' = pressure_zero_ref this
  /\ pressure_range this' = pressure_range this
  /\ pressure_unit this' = pressure_unit this
  /\ temperature_unit this' = temperature_unit this
  /\ pressure_max this' = pressure_max this
  /\ type this' = type this.
Proof. destruct this. cbv zeta. repeat split. Qed.

End Acquisition.

(** Every frame is the frame of some transaction: the scripted bus delivers
    the bytes it is given. *)
Lemma scripted_frame (b0 b1 b2 b3 : Z) :
  frame_of (ScriptedBus.of_script [b0; b1; b2; b3])
  = Array4 (uint8 b0) (uint8 b1) (uint8 b2) (uint8 b3).
Proof. reflexivity. Qed.

Lemma every_frame_arrives (frame : uint8x4) :
  is_frame frame -> exists bus : ScriptedBus.t, frame_of bus = frame.
Proof.
  destruct frame as [b0 b1 b2 b3]. intros (H0 & H1 & H2 & H3). cbn in H0, H1, H2, H3.
  exists (ScriptedBus.of_script [b0; b1; b2; b3]).
  rewrite scripted_frame, !uint8_id by assumption. reflexivity.
Qed.

(** A transaction that delivers fewer than four bytes: [read] answers -1
    for the missing ones, which the buffer keeps as 0xFF. *)
Lemma short_frame :
  frame_of (ScriptedBus.of_script [0x20; 0x00]) = Array4 0x20 0x00 0xFF 0xFF.
Proof. reflexivity. Qed.



(** C10. For every frame, [readData] overwrites the stored status, pressure
    and temperature with the values decoded and converted from that frame,
    also when the decoded status is ERROR or STALE_DATA: nothing of the
    previous reading survives a failed acquisition. *)
Theorem readData_overwrites_reading :
  forall (dbl : FP.double_format) (B : Type) (W : TwoWire B)
         (this : object) (bus : B) (frame : uint8x4),
    frame_of bus = frame ->
    let '(_, this', _) := readData dbl this bus in
    raw_data this' = frame
    /\ status this' = Some (Spec.statusCode (cell0 frame))
    /\ pressure this'
       = Some (convertPressure dbl this
                 (transferPressure dbl this
                    (Spec.pressureCode (cell0 frame) (cell1 frame))))
    /\ temperature this'
       = Some (convertTemperature dbl this
                 (transferTemperature dbl this
                    (Spec.temperatureCode (cell2 frame) (cell3 frame))))
    /\ (forall (status0 : Status) (pressure0 temperature0 : float),
          let '(_, that', _) :=
            readData dbl
              (set_temperature temperature0 (set_pressure pressure0 (set_status status0 this)))
              bus in
          status that' = status this'
          /\ pressure that' = pressure this'
          /\ temperature that' = temperature this').
Proof.
  intros dbl B W this bus frame Hframe.
  assert (Hfr : is_frame frame) by (rewrite <- Hframe; apply frame_of_is_frame).
  assert (Hheld : forall o, is_frame (raw_data (set_raw_data frame o)))
    by (intros o; rewrite DecoderFacts.raw_data_set_raw_data; exact Hfr).
  pose proof (readData_store_reading dbl this bus) as Hrd.
  destruct (readData dbl this bus) as [[failed this'] bus'].
  cbn [fst] in Hrd. injection Hrd as _ Hthis. rewrite Hframe in Hthis.
  destruct (store_reading_fields dbl frame this)
    as (Hraw & Hst & _ & _ & Hp & Ht & _).
  rewrite <- Hthis in Hraw, Hst, Hp, Ht.
  destruct (DecoderFacts.extractIntegerPressure_frame _ (Hheld this)) as [Hpc _].
  destruct (DecoderFacts.extractIntegerTemperature_frame _ (Hheld this)) as [Htc _].
  rewrite Hpc in Hp. rewrite Htc in Ht.
  rewrite DecoderFacts.extractStatus_frame in Hst.
  rewrite DecoderFacts.raw_data_set_raw_data in Hst, Hp, Ht.
  repeat (split; [assumption|]).
  intros status0 pressure0 temperature0.
  set (that := set_temperature _ _).
  pose proof (readData_store_reading dbl that bus) as Hrd'.
  destruct (readData dbl that bus) as [[failed' that'] bus''].
  cbn [fst] in Hrd'. injection Hrd' as _ Hthat. rewrite Hframe in Hthat.
  rewrite Hthis, Hthat. unfold that. destruct this. repeat split.
Qed.

Lemma readData_overwrites_reading_witness :
  let '(failed, this', _) :=
    readData FP.Double64
      (set_temperature (f_of_int 20) (set_pressure (f_of_int 1) (set_status CURRENT AllSensors_DLV_005D)))
      (ScriptedBus.of_script [0xE0; 0x00; 0xFF; 0xE0]) in
  failed = true
  /\ status this' = Some ERROR
  /\ pressure this' = Some (S754_zero false)
  /\ temperature this' = Some (f_of_int 150).
Proof.
  pose proof (readData_overwrites_reading FP.Double64 _ _
                (set_temperature (f_of_int 20)
                   (set_pressure (f_of_int 1) (set_status CURRENT AllSensors_DLV_005D)))
                (ScriptedBus.of_script [0xE0; 0x00; 0xFF; 0xE0])
                (Array4 0xE0 0x00 0xFF 0xE0) eq_refl) as H.
  destruct (readData _ _ _) as [[failed this'] bus'] eqn:E.
  destruct H as (_ & Hst & Hp & Ht & _).
  split; [|split; [exact Hst|split]].
  - change failed with (fst (fst (failed, this', bus'))). rewrite <- E.
    vm_compute. reflexivity.
  - rewrite Hp. vm_compute. reflexivity.
  - rewrite Ht. vm_compute. reflexivity.
Defined.

(** ** Construction and configuration *)

Lemma SFmul_comm (prec emax : Z) (x y : spec_float) :
  SFmul prec emax x y = SFmul prec emax y x.
Proof.
  destruct x as [sx|sx| |sx mx ex], y as [sy|sy| |sy my ey]; simpl;
    try reflexivity; try (rewrite xorb_comm; reflexivity).
  rewrite xorb_comm, Pos.mul_comm, Z.add_comm. reflexivity.
Qed.

Lemma constructor_constants (T : SensorType) (R : float) :
  pressure_zero_ref (AllSensors_DLV T R) = f_of_int (Spec.zeroReferenceCode T)
  /\ pressure_range (AllSensors_DLV T R) = Spec.fullScaleSpan T R.
Proof.
  destruct T; split; try reflexivity.
  cbn [AllSensors_DLV pressure_range Spec.fullScaleSpan].
  unfold f_mul, FP.mul. apply SFmul_comm.
Qed.

Section Preservation.
Variable dbl : FP.double_format.
Context {B : Type} {W : TwoWire B}.

(** No public operation assigns the two calibration members. *)
Lemma step_keeps_calibration (st : object * B) (op : operation) :
  pressure_zero_ref (fst (step dbl st op)) = pressure_zero_ref (fst st)
  /\ pressure_range (fst (step dbl st op)) = pressure_range (fst st).
Proof.
  destruct st as [this bus], op as [|u|u]; cbn [step fst snd].
  - pose proof (readData_store_reading dbl this bus) as Hrd.
    destruct (readData dbl this bus) as [[failed this'] bus'].
    cbn [fst] in *. injection Hrd as _ ->.
    destruct (store_reading_fields dbl (frame_of bus) this)
      as (_ & _ & _ & _ & _ & _ & Hz & Hr & _).
    split; assumption.
  - destruct this; split; reflexivity.
  - destruct this; split; reflexivity.
Qed.

Lemma run_keeps_calibration (ops : list operation) (st : object * B) :
  pressure_zero_ref (fst (run dbl ops st)) = pressure_zero_ref (fst st)
  /\ pressure_range (fst (run dbl ops st)) = pressure_range (fst st).
Proof.
  revert st. induction ops as [|op ops IH]; intros st.
  - split; reflexivity.
  - cbn [run fold_left]. destruct (IH (step dbl st op)) as [Hz Hr].
    destruct (step_keeps_calibration st op) as [Hz' Hr'].
    unfold run in Hz, Hr. split; congruence.
Qed.

End Preservation.

(** C5. A sensor constructed with type T and rating R has
    zeroReferenceCode = 1638 and fullScaleSpan = R when T is GAGE or
    ABSOLUTE, and zeroReferenceCode = 8192 and fullScaleSpan = 2 * R when T
    is DIFFERENTIAL; the two members are determined by (T, R) and no
    sequence of [readData], [setPressureUnit] and [setTemperatureUnit]
    changes them. *)
Theorem calibration_constants_fixed :
  forall (dbl : FP.double_format) (B : Type) (W : TwoWire B)
         (T : SensorType) (R : float) (ops : list operation) (bus : B),
    let this := AllSensors_DLV T R in
    let this' := fst (run dbl ops (this, bus)) in
    pressure_zero_ref this = f_of_int (Spec.zeroReferenceCode T)
    /\ pressure_range this = Spec.fullScaleSpan T R
    /\ pressure_zero_ref this' = f_of_int (Spec.zeroReferenceCode T)
    /\ pressure_range this' = Spec.fullScaleSpan T R.
Proof.
  intros dbl B W T R ops bus this this'.
  destruct (constructor_constants T R) as [Hz Hr].
  destruct (run_keeps_calibration dbl ops (this, bus)) as [Hz' Hr'].
  cbn [fst] in Hz', Hr'. unfold this', this in *.
  repeat split; congruence.
Qed.

(** ** Unit conversion *)

Lemma convertPressure_table (dbl : FP.double_format) (this : object)
      (u : Spec.PressureUnit) (psi : float) :
  pressure_unit this = Spec.pressure_selector u ->
  convertPressure dbl this psi = Spec.convertPressure dbl u psi.
Proof. intros H. unfold convertPressure. rewrite H. destruct u; reflexivity. Qed.

Lemma convertTemperature_table (dbl : FP.double_format) (this : object)
      (u : Spec.TemperatureUnit) (degree_c : float) :
  temperature_unit this = Spec.temperature_selector u ->
  convertTemperature dbl this degree_c = Spec.convertTemperature dbl u degree_c.
Proof. intros H. unfold convertTemperature. rewrite H. destruct u; reflexivity. Qed.

(** C6. The pressure converter returns its input unchanged when the
    configured unit is PSI, input * 27.679904 for IN_H2O and
    input * 6894.75729 for PASCAL; the temperature converter returns its
    input unchanged for CELSIUS, input * 1.8 + 32.0 for FAHRENHEIT and
    input + 273.15 for KELVIN. *)
Theorem converters_follow_tables :
  forall (dbl : FP.double_format) (this that : object)
         (pu : Spec.PressureUnit) (tu : Spec.TemperatureUnit) (x : float),
    pressure_unit this = Spec.pressure_selector pu ->
    temperature_unit that = Spec.temperature_selector tu ->
    convertPressure dbl this x = Spec.convertPressure dbl pu x
    /\ convertTemperature dbl that x = Spec.convertTemperature dbl tu x.
Proof.
  intros dbl this that pu tu x Hp Ht. split.
  - apply convertPressure_table; assumption.
  - apply convertTemperature_table; assumption.
Qed.

Lemma converters_follow_tables_witness :
  let this := setTemperatureUnit (setPressureUnit AllSensors_DLV_005G PASCAL) FAHRENHEIT in
  convertPressure FP.Double64 this (f_of_int 1)
  = to_float (d_mul FP.Double64 (to_double FP.Double64 (f_of_int 1)) (dec FP.Double64 689475729 5))
  /\ convertTemperature FP.Double64 this (f_of_int 100) = f_of_int 212.
Proof.
  intros this.
  destruct (converters_follow_tables FP.Double64 this this Spec.PASCAL Spec.FAHRENHEIT
              (f_of_int 1) eq_refl eq_refl) as [Hp _].
  destruct (converters_follow_tables FP.Double64 this this Spec.PASCAL Spec.FAHRENHEIT
              (f_of_int 100) eq_refl eq_refl) as [_ Ht].
  split.
  - rewrite Hp. reflexivity.
  - rewrite Ht. vm_compute. reflexivity.
Defined.

(** C7. With a unit selector outside the enumerated set, each converter
    returns its input unchanged: it falls back to the base unit and raises
    no error. *)
Theorem converters_fall_back_to_identity :
  forall (dbl : FP.double_format) (this that : object) (x : float),
    pressure_unit this <> PSI ->
    pressure_unit this <> IN_H2O ->
    pressure_unit this <> PASCAL ->
    temperature_unit that <> CELCIUS ->
    temperature_unit that <> FAHRENHEIT ->
    temperature_unit that <> KELVIN ->
    convertPressure dbl this x = x /\ convertTemperature dbl that x = x.
Proof.
  intros dbl this that x _ Hh Hp _ Hf Hk. split.
  - unfold convertPressure.
    destruct (Z.eqb_spec (pressure_unit this) PASCAL); [contradiction|].
    destruct (Z.eqb_spec (pressure_unit this) IN_H2O); [contradiction|reflexivity].
  - unfold convertTemperature.
    destruct (Z.eqb_spec (temperature_unit that) FAHRENHEIT); [contradiction|].
    destruct (Z.eqb_spec (temperature_unit that) KELVIN); [contradiction|reflexivity].
Qed.

Lemma converters_fall_back_to_identity_witness :
  let this := setTemperatureUnit (setPressureUnit AllSensors_DLV_005G 0) 255 in
  convertPressure FP.Double32 this (f_of_int 7) = f_of_int 7
  /\ convertTemperature FP.Double32 this (f_of_int 7) = f_of_int 7.
Proof.
  intros this.
  apply (converters_fall_back_to_identity FP.Double32 this this (f_of_int 7));
    vm_compute; discriminate.
Defined.

(** ** Transfer functions *)

Lemma div_eucl_exact (a b q : Z) : 0 < b -> a = b * q -> Z.div_eucl a b = (q, 0).
Proof.
  intros Hb ->. pose proof (Z_div_mod (b * q) b ltac:(lia)) as H.
  destruct (Z.div_eucl (b * q) b) as [q' r]. destruct H as [H Hr].
  assert (q' = q) by nia. subst q'. f_equal. lia.
Qed.

Lemma new_location_0 (n : Z) : new_location n 0 = loc_Exact.
Proof. unfold new_location. destruct (Z.even n); reflexivity. Qed.

(** Dividing a normal number by 2^14, the number [d * 2^(15 - p)] with
    [d = 2^(p - 1)], only lowers its exponent: the quotient of the mantissas
    is exact and the rounding that follows drops one zero bit. *)
Lemma SFdiv_pow2_14 (p emax : Z) (d : positive) (s : bool) (m : positive) (e : Z) :
  1 < p ->
  Zpos (digits2_pos m) = p ->
  Zpos (digits2_pos d) = p ->
  Zpos d = 2 ^ (p - 1) ->
  3 - emax - p <= e - 15 ->
  e - 14 <= emax - p ->
  SFdiv p emax (S754_finite s m e) (S754_finite false d (15 - p)) = S754_finite s m (e - 14).
Proof.
  intros Hp Hm Hd Hpow Hlo Hhi.
  unfold SFdiv, SFdiv_core_binary. cbn [Zdigits2]. rewrite Hm, Hd.
  replace (Z.min (fexp p emax (p + e - (p + (15 - p)))) (e - (15 - p))) with (e - 15)
    by (unfold fexp, emin; lia).
  replace (e - (15 - p) - (e - 15)) with (Zpos (digits2_pos m)) by lia.
  rewrite (div_eucl_exact _ _ (Zpos m~0)); [|lia|].
  2:{ rewrite Z.shiftl_mul_pow2, Hm, Hpow by lia.
      replace p with (Z.succ (p - 1)) at 1 by lia. rewrite Z.pow_succ_r by lia.
      change (Zpos m~0) with (2 * Zpos m). ring. }
  rewrite new_location_0.
  unfold binary_round_aux, shr_fexp. cbn [Zdigits2 digits2_pos].
  rewrite Pos2Z.inj_succ, Hm.
  replace (fexp p emax (Z.succ p + (e - 15)) - (e - 15)) with 1
    by (unfold fexp, emin; lia).
  cbn [shr shr_record_of_loc iter_pos shr_1 shr_m loc_of_shr_record
       round_nearest_even orb Zdigits2].
  rewrite Hm.
  replace (fexp p emax (p + (e - 15 + 1)) - (e - 15 + 1)) with 0
    by (unfold fexp, emin; lia).
  cbn [shr shr_record_of_loc shr_m].
  replace (e - 15 + 1 <=? emax - p) with true by (symmetry; apply Z.leb_le; lia).
  rewrite xorb_false_r. f_equal. lia.
Qed.

(** The divisor of the two quotients: 16384 in [float], 16384.0 in [double]. *)
Lemma full_scale_float :
  f_of_int FULL_SCALE_REF = S754_finite false 8388608 (15 - FP.prec FP.binary32).
Proof. reflexivity. Qed.

Lemma full_scale_double (dbl : FP.double_format) :
  exists d : positive,
    dec dbl 163840 1 = S754_finite false d (15 - FP.prec (FP.dfmt dbl))
    /\ Zpos (digits2_pos d) = FP.prec (FP.dfmt dbl)
    /\ Zpos d = 2 ^ (FP.prec (FP.dfmt dbl) - 1).
Proof. destruct dbl; eexists; repeat split. Qed.

Lemma div_lowers_by_14 (f : FP.format) (d : positive) (s : bool) (m : positive) (e : Z) :
  1 < FP.prec f ->
  Zpos (digits2_pos d) = FP.prec f ->
  Zpos d = 2 ^ (FP.prec f - 1) ->
  lowers_by_14 f m e = true ->
  FP.div f (S754_finite s m e) (S754_finite false d (15 - FP.prec f))
  = S754_finite s m (e - 14).
Proof.
  intros Hp Hd Hpow H. unfold lowers_by_14 in H.
  apply andb_true_iff in H. destruct H as [H Hhi].
  apply andb_true_iff in H. destruct H as [Hm Hlo].
  apply Z.eqb_eq in Hm. apply Z.leb_le in Hlo, Hhi.
  unfold FP.div. apply SFdiv_pow2_14; assumption.
Qed.

Lemma fraction_checked (dbl : FP.double_format) (zeroReferenceCode : Z) :
  zeroReferenceCode = 1638 \/ zeroReferenceCode = 8192 ->
  forall_below 16384
    (fraction_test dbl zeroReferenceCode (f_of_int zeroReferenceCode)) = true.
Proof. intros [->| ->]; destruct dbl; vm_cast_no_check (eq_refl true). Qed.

(** On 14-bit codes the [float] subtraction and division of the code lose
    nothing: they give the quotient the specification computes in [double]. *)
Lemma code_fraction (dbl : FP.double_format) (T : SensorType) (code : Z) :
  0 <= code <= 16383 ->
  to_double dbl
    (f_div (f_sub (f_of_int code) (f_of_int (Spec.zeroReferenceCode T)))
           (f_of_int FULL_SCALE_REF))
  = d_div dbl (d_of_int dbl (code - Spec.zeroReferenceCode T)) (dec dbl 163840 1).
Proof.
  intros Hcode.
  assert (Hz : Spec.zeroReferenceCode T = 1638 \/ Spec.zeroReferenceCode T = 8192)
    by (destruct T; simpl; auto).
  pose proof (forall_below_spec _ _ (fraction_checked dbl _ Hz) code ltac:(lia)) as H.
  unfold fraction_test in H.
  destruct (full_scale_double dbl) as (d & -> & Hd & Hpow).
  rewrite full_scale_float.
  assert (Hprec : 1 < FP.prec (FP.dfmt dbl)) by (destruct dbl; reflexivity).
  destruct (f_sub _ _) as [sx|sx| |sx mx ex];
    destruct (d_of_int dbl _) as [sy|sy| |sy my ey]; try discriminate.
  - apply eqb_prop in H. subst sy. unfold f_div, d_div, to_double, FP.div.
    cbn [SFdiv FP.promote]. reflexivity.
  - apply andb_true_iff in H. destruct H as [H Hsame].
    apply andb_true_iff in H. destruct H as [Hx Hy].
    unfold f_div, d_div.
    rewrite (div_lowers_by_14 FP.binary32) by (try assumption; reflexivity).
    rewrite (div_lowers_by_14 (FP.dfmt dbl)) by assumption.
    apply same_eq. exact Hsame.
Qed.

Lemma transferPressure_refines (dbl : FP.double_format) (T : SensorType) (R : float) (code : Z) :
  0 <= code <= 16383 ->
  transferPressure dbl (AllSensors_DLV T R) code
  = Spec.pressurePSI dbl code (Spec.zeroReferenceCode T) (Spec.fullScaleSpan T R).
Proof.
  intros Hcode. unfold transferPressure, Spec.pressurePSI.
  destruct (constructor_constants T R) as [-> ->].
  rewrite code_fraction by assumption. reflexivity.
Qed.

Lemma midscale_factor (dbl : FP.double_format) :
  d_mul dbl (dec dbl 125 2)
    (to_double dbl
       (f_div (f_sub (f_of_int 8192) (f_of_int 8192)) (f_of_int FULL_SCALE_REF)))
  = S754_zero false.
Proof. destruct dbl; vm_compute; reflexivity. Qed.

Lemma promote_finite (f : FP.format) (x : spec_float) :
  FP.is_finite x = true -> FP.is_finite (FP.promote f x) = true.
Proof.
  destruct x as [s|s| |s m e]; simpl; intros H; try assumption.
  destruct (shl_align m e _) as [m' e']. reflexivity.
Qed.

Lemma zero_mul_finite (f : FP.format) (s : bool) (y : spec_float) :
  FP.is_finite y = true -> FP.is_zero (FP.mul f (S754_zero s) y) = true.
Proof. destruct y; simpl; intros H; try discriminate; reflexivity. Qed.

Lemma round_zero (f : FP.format) (x : spec_float) :
  FP.is_zero x = true -> FP.is_zero (FP.round f x) = true.
Proof. destruct x; simpl; intros H; try discriminate; reflexivity. Qed.

Lemma differential_midscale (dbl : FP.double_format) (R : float) :
  FP.is_finite (Spec.fullScaleSpan DIFFERENTIAL R) = true ->
  FP.is_zero (transferPressure dbl (AllSensors_DLV DIFFERENTIAL R) 8192) = true.
Proof.
  intros Hfin. unfold transferPressure.
  destruct (constructor_constants DIFFERENTIAL R) as [-> ->].
  change (Spec.zeroReferenceCode DIFFERENTIAL) with 8192.
  rewrite midscale_factor.
  apply round_zero, zero_mul_finite, promote_finite. exact Hfin.
Qed.


(** The transfer function looks at the two calibration members only. *)
Lemma transferPressure_by_calibration (dbl : FP.double_format) (this that : object) (code : Z) :
  pressure_zero_ref this = pressure_zero_ref that ->
  pressure_range this = pressure_range that ->
  transferPressure dbl this code = transferPressure dbl that code.
Proof. intros Hz Hr. unfold transferPressure. rewrite Hz, Hr. reflexivity. Qed.

(** C1.  For every sensor configuration, that is for every sensor type T
    and rating R, whichever unit selectors have been set and whatever has
    been read since construction, and for every pressureCode in
    [0, 16383], the pressure transfer function returns exactly
    1.25 * ((pressureCode - zeroReferenceCode) / 16384) * fullScaleSpan:
    with 1638 and R for GAGE and ABSOLUTE, with 8192 and 2R for
    DIFFERENTIAL.  A DIFFERENTIAL sensor whose span 2R is finite yields
    zero at pressureCode = 8192. *)
Theorem transferPressure_formula :
  forall (dbl : FP.double_format) (B : Type) (W : TwoWire B)
         (T : SensorType) (R : float) (ops : list operation) (bus : B)
         (pressureCode : Z),
    0 <= pressureCode <= 16383 ->
    let this := fst (run dbl ops (AllSensors_DLV T R, bus)) in
    transferPressure dbl this pressureCode
    = Spec.pressurePSI dbl pressureCode (Spec.zeroReferenceCode T) (Spec.fullScaleSpan T R)
    /\ (T = GAGE \/ T = ABSOLUTE ->
        transferPressure dbl this pressureCode = Spec.pressurePSI dbl pressureCode 1638 R)
    /\ (T = DIFFERENTIAL ->
        transferPressure dbl this pressureCode
        = Spec.pressurePSI dbl pressureCode 8192 (f_mul (f_of_int 2) R))
    /\ (T = DIFFERENTIAL ->
        FP.is_finite (f_mul (f_of_int 2) R) = true ->
        FP.is_zero (transferPressure dbl this 8192) = true).
Proof.
  intros dbl B W T R ops bus code Hcode this.
  destruct (run_keeps_calibration dbl ops (AllSensors_DLV T R, bus)) as [Hz Hr].
  cbn [fst] in Hz, Hr. fold this in Hz, Hr.
  assert (Hsame : forall c, transferPressure dbl this c
                            = transferPressure dbl (AllSensors_DLV T R) c)
    by (intros c; apply transferPressure_by_calibration; assumption).
  assert (Hformula : transferPressure dbl this code
                     = Spec.pressurePSI dbl code (Spec.zeroReferenceCode T)
                         (Spec.fullScaleSpan T R))
    by (rewrite Hsame; apply transferPressure_refines; exact Hcode).
  split; [exact Hformula|]. split; [|split].
  - intros [-> | ->]; exact Hformula.
  - intros ->. exact Hformula.
  - intros -> Hfin. rewrite Hsame. apply differential_midscale. exact Hfin.
Qed.

Lemma transferPressure_formula_witness :
  let this :=
    fst (run FP.Double64 [SetPressureUnit PASCAL; ReadData; SetTemperatureUnit KELVIN]
           (AllSensors_DLV_030D, ScriptedBus.of_script [0x3F; 0xFF; 0xFF; 0xE0])) in
  transferPressure FP.Double64 this 12288
  = Spec.pressurePSI FP.Double64 12288 8192 (f_of_int 60)
  /\ FP.exactly (transferPressure FP.Double64 this 12288) (75 # 4)
  /\ FP.is_zero (transferPressure FP.Double64 this 8192) = true.
Proof.
  intros this.
  destruct (transferPressure_formula FP.Double64 ScriptedBus.t ScriptedBus_TwoWire
              DIFFERENTIAL (f_of_int 30)
              [SetPressureUnit PASCAL; ReadData; SetTemperatureUnit KELVIN]
              (ScriptedBus.of_script [0x3F; 0xFF; 0xFF; 0xE0]) 12288)
    as (_ & _ & H & Hzero); [lia|].
  specialize (H eq_refl). specialize (Hzero eq_refl eq_refl).
  fold AllSensors_DLV_030D in H, Hzero. fold this in H, Hzero.
  split; [|split].
  - rewrite H. reflexivity.
  - rewrite H. eexists. split; [vm_compute; reflexivity|]. reflexivity.
  - exact Hzero.
Defined.

(** C1, without the condition on the span: the statement that every
    DIFFERENTIAL sensor yields zero at pressureCode = 8192 fails when the
    rating is so large that doubling it overflows.  With R = 2^127 the span
    2R is infinite, and zero times infinity is not a number. *)
Lemma differential_midscale_overflow :
  FP.valid FP.binary32 two_pow_127 = true
  /\ pressure_range (AllSensors_DLV DIFFERENTIAL two_pow_127) = S754_infinity false
  /\ transferPressure FP.Double32 (AllSensors_DLV DIFFERENTIAL two_pow_127) 8192 = S754_nan
  /\ transferPressure FP.Double64 (AllSensors_DLV DIFFERENTIAL two_pow_127) 8192 = S754_nan
  /\ FP.is_zero (transferPressure FP.Double64 (AllSensors_DLV DIFFERENTIAL two_pow_127) 8192)
     = false.
Proof. repeat split; vm_compute; reflexivity. Qed.

Lemma promotion_checked (dbl : FP.double_format) :
  forall_below 2048 (promotion_test dbl) = true.
Proof. destruct dbl; vm_compute; reflexivity. Qed.

Lemma transferTemperature_refines (dbl : FP.double_format) (this : object) (code : Z) :
  0 <= code <= 2047 ->
  transferTemperature dbl this code = Spec.temperatureC dbl code.
Proof.
  intros Hcode. unfold transferTemperature, Spec.temperatureC.
  assert (H : to_double dbl (f_of_int code) = d_of_int dbl code).
  { apply same_eq. apply (forall_below_spec _ _ (promotion_checked dbl) code). lia. }
  rewrite H. reflexivity.
Qed.

Lemma transferTemperature_ends (dbl : FP.double_format) (this : object) :
  transferTemperature dbl this 0 = f_of_int (-50)
  /\ transferTemperature dbl this 2047 = f_of_int 150.
Proof. destruct dbl; split; vm_compute; reflexivity. Qed.

(** C3. For every temperatureCode in [0, 2047] the temperature transfer
    function returns temperatureCode * (200.0 / 2047.0) - 50.0; at code 0
    it returns -50.0 and at code 2047 it returns 150.0 (here with no
    rounding error at all). *)
Theorem transferTemperature_formula :
  forall (dbl : FP.double_format) (this : object) (temperatureCode : Z),
    0 <= temperatureCode <= 2047 ->
    transferTemperature dbl this temperatureCode = Spec.temperatureC dbl temperatureCode
    /\ FP.exactly (transferTemperature dbl this 0) (-50)
    /\ FP.exactly (transferTemperature dbl this 2047) 150.
Proof.
  intros dbl this code Hcode.
  split; [apply transferTemperature_refines; assumption|].
  destruct (transferTemperature_ends dbl this) as [-> ->].
  split; eexists; (split; [vm_compute; reflexivity|reflexivity]).
Qed.

Lemma transferTemperature_formula_witness :
  transferTemperature FP.Double32 AllSensors_DLV_015G 1024 = Spec.temperatureC FP.Double32 1024
  /\ FP.exactly (transferTemperature FP.Double32 AllSensors_DLV_015G 0) (-50)
  /\ FP.exactly (transferTemperature FP.Double32 AllSensors_DLV_015G 2047) 150.
Proof.
  apply (transferTemperature_formula FP.Double32 AllSensors_DLV_015G 1024). lia.
Defined.

(** * Further properties of the driver *)

(** ** The bus transaction of [readData] *)

(** X1.  [readData] sends one request for four bytes to address 0x28, reads
    exactly four times and ends the transmission; the object it is called
    on has no influence on the traffic. *)
Theorem readData_bus_traffic :
  forall (dbl : FP.double_format) (B : Type) (W : TwoWire B) (this : object) (bus : B),
    snd (readData dbl this bus)
    = endTransmission
        (snd (read (snd (read (snd (read (snd (read (requestFrom 0x28 4 bus))))))))).
Proof.
  intros dbl B W this bus. unfold readData.
  rewrite read_loop_unrolled.
  change (requestFrom I2C_ADDRESS (uint8 READ_LENGTH) bus) with (requestFrom 0x28 4 bus).
  destruct (read (requestFrom 0x28 4 bus)) as [v0 bus1]. cbn [snd].
  destruct (read bus1) as [v1 bus2]. cbn [snd].
  destruct (read bus2) as [v2 bus3]. cbn [snd].
  destruct (read bus3) as [v3 bus4]. reflexivity.
Qed.

Lemma first_cell (B : Type) (W : TwoWire B) (bus : B) :
  cell0 (frame_of bus) = uint8 (fst (read (requestFrom 0x28 4 bus))).
Proof.
  unfold frame_of. rewrite read_loop_unrolled.
  change (requestFrom I2C_ADDRESS (uint8 READ_LENGTH) bus) with (requestFrom 0x28 4 bus).
  destruct (read (requestFrom 0x28 4 bus)) as [v0 bus1].
  destruct (read bus1) as [v1 bus2]. destruct (read bus2) as [v2 bus3].
  destruct (read bus3) as [v3 bus4]. reflexivity.
Qed.

Lemma status_ERROR_byte (b : Z) :
  is_uint8 b -> (Spec.statusCode b = ERROR <-> 192 <= b).
Proof.
  intros Hb. unfold is_uint8 in Hb. unfold Spec.statusCode, ERROR.
  change 3 with (Z.ones 2) at 1. rewrite Z.land_ones by lia.
  rewrite Z.shiftr_div_pow2 by lia. change (2 ^ 6) with 64. change (2 ^ 2) with 4.
  assert (0 <= b / 64 < 4) by (split; [apply Z.div_pos; lia|apply Z.div_lt_upper_bound; lia]).
  rewrite Z.mod_small by assumption.
  split; intros H'.
  - pose proof (Z.mul_div_le b 64 ltac:(lia)). 
    pose proof (Z_div_mod_eq_full b 64). pose proof (Z.mod_pos_bound b 64 ltac:(lia)). lia.
  - assert (3 <= b / 64) by (apply Z.div_le_lower_bound; lia). lia.
Qed.

Lemma readData_result (dbl : FP.double_format) (B : Type) (W : TwoWire B)
      (this : object) (bus : B) :
  fst (fst (readData dbl this bus)) = (Spec.statusCode (cell0 (frame_of bus)) =? ERROR).
Proof.
  pose proof (readData_store_reading dbl this bus) as Hrd.
  destruct (readData dbl this bus) as [[failed this'] bus'].
  cbn [fst] in *. injection Hrd as -> _.
  destruct (store_reading_fields dbl (frame_of bus) this) as (_ & Hst & _).
  unfold status_is. rewrite Hst, DecoderFacts.extractStatus_frame.
  rewrite DecoderFacts.raw_data_set_raw_data. reflexivity.
Qed.

(** X2.  The first value [read] returns after the request is stored, as a
    byte, in byte 0 of the buffer, and it decides the result of [readData]:
    the result is [true] exactly when the two top bits of that byte are
    set.  When nothing has arrived [read] returns -1, byte 0 of the buffer
    holds 0xFF and [readData] reports failure. *)
Theorem readData_decided_by_first_read :
  forall (dbl : FP.double_format) (B : Type) (W : TwoWire B)
         (this : object) (bus : B) (v0 : Z),
    fst (read (requestFrom 0x28 4 bus)) = v0 ->
    let '(failed, this', _) := readData dbl this bus in
    get (raw_data this') 0 = v0 mod 256
    /\ (failed = true <-> 192 <= v0 mod 256)
    /\ (v0 = -1 -> get (raw_data this') 0 = 0xFF /\ failed = true).
Proof.
  intros dbl B W this bus v0 Hv0.
  pose proof (readData_result dbl B W this bus) as Hres.
  pose proof (readData_store_reading dbl this bus) as Hrd.
  destruct (readData dbl this bus) as [[failed this'] bus'].
  cbn [fst] in Hres, Hrd. injection Hrd as _ ->.
  destruct (store_reading_fields dbl (frame_of bus) this) as (Hraw & _).
  assert (Hcell : get (raw_data (store_reading dbl (frame_of bus) this)) 0 = v0 mod 256)
    by (rewrite Hraw; cbn [get]; rewrite first_cell, Hv0; reflexivity).
  assert (Hiff : failed = true <-> 192 <= v0 mod 256).
  { rewrite Hres, first_cell, Hv0. rewrite Z.eqb_eq.
    apply (status_ERROR_byte (uint8 v0)). apply uint8_is_uint8. }
  split; [exact Hcell|]. split; [exact Hiff|].
  intros ->. split; [exact Hcell|].
  apply Hiff. change (-1 mod 256) with 255. lia.
Qed.

Lemma readData_decided_by_first_read_witness :
  let '(failed, this', _) :=
    readData FP.Double32 AllSensors_DLV_015G (ScriptedBus.of_script []) in
  get (raw_data this') 0 = 0xFF /\ failed = true.
Proof.
  pose proof (readData_decided_by_first_read FP.Double32 ScriptedBus.t ScriptedBus_TwoWire
                AllSensors_DLV_015G (ScriptedBus.of_script []) (-1) (eq_refl (-1))) as H.
  destruct (readData _ _ _) as [[failed this'] bus'].
  destruct H as (_ & _ & H). apply H. reflexivity.
Defined.

(** ** What the object holds over a session *)

Lemma extract_by_buffer (a b : object) :
  raw_data a = raw_data b ->
  extractStatus a = extractStatus b
  /\ extractIntegerPressure a = extractIntegerPressure b
  /\ extractIntegerTemperature a = extractIntegerTemperature b.
Proof.
  intros H. unfold extractStatus, extractIntegerPressure, extractIntegerTemperature.
  rewrite H. repeat split.
Qed.

Lemma coherent_fresh (T : SensorType) (R : float) : coherent (AllSensors_DLV T R).
Proof.
  destruct T; unfold coherent, is_frame, is_uint8; cbn;
    (repeat split; try lia; try reflexivity; left; repeat split).
Qed.

Lemma coherent_setPressureUnit (this : object) (u : PressureUnit) :
  coherent this -> coherent (setPressureUnit this u).
Proof. destruct this. exact (fun H => H). Qed.

Lemma coherent_setTemperatureUnit (this : object) (u : TemperatureUnit) :
  coherent this -> coherent (setTemperatureUnit this u).
Proof. destruct this. exact (fun H => H). Qed.

Lemma coherent_store_reading (dbl : FP.double_format) (f : uint8x4) (this : object) :
  is_frame f -> coherent (store_reading dbl f this).
Proof.
  intros Hf.
  destruct (store_reading_fields dbl f this)
    as (Hraw & Hst & Hrp & Hrt & Hp & Ht & _).
  assert (Hsame : raw_data (store_reading dbl f this) = raw_data (set_raw_data f this))
    by (rewrite Hraw, DecoderFacts.raw_data_set_raw_data; reflexivity).
  destruct (extract_by_buffer _ _ Hsame) as (Hes & Hep & Het).
  assert (Hframe : is_frame (raw_data (store_reading dbl f this)))
    by (rewrite Hraw; exact Hf).
  destruct (DecoderFacts.extractIntegerPressure_frame _ Hframe) as [_ Hprange].
  destruct (DecoderFacts.extractIntegerTemperature_frame _ Hframe) as [_ Htrange].
  unfold coherent.
  split; [exact Hframe|].
  split; [rewrite Hrp, Hep; reflexivity|].
  split; [rewrite Hrt, Het; reflexivity|].
  split; [rewrite Hrp, <- Hep; exact Hprange|].
  split; [rewrite Hrt, <- Het; exact Htrange|].
  right. split; [rewrite Hst, Hes; reflexivity|].
  split; [rewrite Hp|rewrite Ht]; discriminate.
Qed.

Section Sessions.
Variable dbl : FP.double_format.
Context {B : Type} {W : TwoWire B}.

Lemma object_after_readData (this : object) (bus : B) :
  snd (fst (readData dbl this bus)) = store_reading dbl (frame_of bus) this.
Proof. rewrite readData_store_reading. reflexivity. Qed.

Lemma step_object (st : object * B) (op : operation) :
  fst (step dbl st op)
  = match op with
    | ReadData => store_reading dbl (frame_of (snd st)) (fst st)
    | SetPressureUnit u => setPressureUnit (fst st) u
    | SetTemperatureUnit u => setTemperatureUnit (fst st) u
    end.
Proof.
  destruct st as [this bus], op as [|u|u]; cbn [step fst snd]; try reflexivity.
  rewrite <- object_after_readData.
  destruct (readData dbl this bus) as [[failed this'] bus']. reflexivity.
Qed.

Lemma step_coherent (st : object * B) (op : operation) :
  coherent (fst st) -> coherent (fst (step dbl st op)).
Proof.
  intros H. rewrite step_object. destruct op as [|u|u].
  - apply coherent_store_reading, frame_of_is_frame.
  - apply coherent_setPressureUnit, H.
  - apply coherent_setTemperatureUnit, H.
Qed.

Lemma run_coherent (ops : list operation) (st : object * B) :
  coherent (fst st) -> coherent (fst (run dbl ops st)).
Proof.
  revert st. induction ops as [|op ops IH]; intros st H; [exact H|].
  cbn [run fold_left]. apply IH, step_coherent, H.
Qed.

Lemma step_units (st : object * B) (op : operation) :
  pressure_unit (fst (step dbl st op))
  = match op with SetPressureUnit u => u | _ => pressure_unit (fst st) end
  /\ temperature_unit (fst (step dbl st op))
     = match op with SetTemperatureUnit u => u | _ => temperature_unit (fst st) end.
Proof.
  rewrite step_object. destruct op as [|u|u].
  - destruct (store_reading_fields dbl (frame_of (snd st)) (fst st))
      as (_ & _ & _ & _ & _ & _ & _ & _ & Hp & Ht & _).
    split; assumption.
  - destruct (fst st); split; reflexivity.
  - destruct (fst st); split; reflexivity.
Qed.

Lemma run_units (ops : list operation) (st : object * B) :
  pressure_unit (fst (run dbl ops st)) = last_pressure_unit ops (pressure_unit (fst st))
  /\ temperature_unit (fst (run dbl ops st))
     = last_temperature_unit ops (temperature_unit (fst st)).
Proof.
  revert st. induction ops as [|op ops IH]; intros st; [split; reflexivity|].
  cbn [run fold_left last_pressure_unit last_temperature_unit].
  destruct (IH (step dbl st op)) as [Hp Ht].
  destruct (step_units st op) as [Hp' Ht'].
  unfold run, last_pressure_unit, last_temperature_unit in *.
  rewrite Hp, Ht, Hp', Ht'. split; reflexivity.
Qed.

End Sessions.

Lemma last_units_of_reads (n : nat) (pu : PressureUnit) (tu : TemperatureUnit) :
  last_pressure_unit (repeat ReadData n) pu = pu
  /\ last_temperature_unit (repeat ReadData n) tu = tu.
Proof.
  induction n as [|n [IHp IHt]]; [split; reflexivity|].
  unfold last_pressure_unit, last_temperature_unit in *. cbn [repeat fold_left].
  split; assumption.
Qed.

(** C9. A freshly constructed sensor has pressureUnit = PSI and
    temperatureUnit = CELSIUS, and as long as no unit setter is called,
    after any number of acquisitions, the selectors are still PSI and
    CELSIUS and the converters that acquisition applies are the identity:
    every acquisition stores the transferred values unconverted and leaves
    the selectors as they are. *)
Theorem fresh_sensor_uses_base_units :
  forall (dbl : FP.double_format) (B : Type) (W : TwoWire B)
         (T : SensorType) (R : float) (n : nat) (bus : B),
    let this := fst (run dbl (repeat ReadData n) (AllSensors_DLV T R, bus)) in
    pressure_unit this = PSI
    /\ temperature_unit this = CELCIUS
    /\ (forall psi : float, convertPressure dbl this psi = psi)
    /\ (forall degree_c : float, convertTemperature dbl this degree_c = degree_c)
    /\ (forall next : B,
          let '(_, this', _) := readData dbl this next in
          pressure this' = Some (transferPressure dbl this (raw_p this'))
          /\ temperature this' = Some (transferTemperature dbl this (raw_t this'))
          /\ pressure_unit this' = PSI
          /\ temperature_unit this' = CELCIUS).
Proof.
  intros dbl B W T R n bus this.
  destruct (run_units dbl (repeat ReadData n) (AllSensors_DLV T R, bus)) as [Hpu Htu].
  destruct (last_units_of_reads n (pressure_unit (AllSensors_DLV T R))
              (temperature_unit (AllSensors_DLV T R))) as [Hlp Hlt].
  cbn [fst] in Hpu, Htu. rewrite Hlp in Hpu. rewrite Hlt in Htu.
  assert (Hpsi : pressure_unit this = PSI)
    by (unfold this; rewrite Hpu; destruct T; reflexivity).
  assert (Hcel : temperature_unit this = CELCIUS)
    by (unfold this; rewrite Htu; destruct T; reflexivity).
  assert (HP : forall psi, convertPressure dbl this psi = psi)
    by (intros psi; unfold convertPressure; rewrite Hpsi; reflexivity).
  assert (HT : forall c, convertTemperature dbl this c = c)
    by (intros c; unfold convertTemperature; rewrite Hcel; reflexivity).
  split; [exact Hpsi|]. split; [exact Hcel|]. split; [exact HP|]. split; [exact HT|].
  intros next.
  pose proof (readData_store_reading dbl this next) as Hrd.
  destruct (readData dbl this next) as [[failed this'] bus'].
  cbn [fst] in Hrd. injection Hrd as _ ->.
  destruct (store_reading_fields dbl (frame_of next) this)
    as (_ & _ & Hrp & Hrt & Hp & Ht & _ & _ & Hpu' & Htu' & _).
  rewrite Hp, Ht, Hrp, Hrt, HP, HT, Hpu', Htu'. repeat split; assumption.
Qed.

(** X3.  Whatever the bus returns, from construction on and after every sequence
    of [readData], [setPressureUnit] and [setTemperatureUnit], the buffer
    holds four bytes, [raw_p] and [raw_t] are the codes of the buffer with
    [raw_p] at most 16383 and [raw_t] at most 2047, and status, pressure and
    temperature are assigned together, the status being the one of the
    buffer. *)
Theorem session_keeps_object_coherent :
  forall (dbl : FP.double_format) (B : Type) (W : TwoWire B)
         (T : SensorType) (R : float) (ops : list operation) (bus : B),
    coherent (fst (run dbl ops (AllSensors_DLV T R, bus))).
Proof.
  intros dbl B W T R ops bus. apply run_coherent. apply coherent_fresh.
Qed.

(** X4.  The unit selectors of an object are the arguments of the last calls of
    the two setters, PSI and CELCIUS for a setter never called: [readData]
    changes neither, and neither setter changes the other's selector. *)
Theorem session_units_are_last_set :
  forall (dbl : FP.double_format) (B : Type) (W : TwoWire B)
         (T : SensorType) (R : float) (ops : list operation) (bus : B),
    pressure_unit (fst (run dbl ops (AllSensors_DLV T R, bus)))
    = last_pressure_unit ops PSI
    /\ temperature_unit (fst (run dbl ops (AllSensors_DLV T R, bus)))
       = last_temperature_unit ops CELCIUS.
Proof.
  intros dbl B W T R ops bus.
  destruct (run_units dbl ops (AllSensors_DLV T R, bus)) as [Hp Ht].
  cbn [fst] in Hp, Ht. rewrite Hp, Ht. destruct T; split; reflexivity.
Qed.

(** X5.  A change of units is not applied to the reading already stored, and it
    is applied to the next one: after the setters the stored status,
    pressure and temperature are what they were, and the next [readData]
    stores the transferred values converted by the tables' entries for the
    new units. *)
Theorem units_apply_to_next_reading :
  forall (dbl : FP.double_format) (B : Type) (W : TwoWire B) (this : object) (bus : B)
         (pu : Spec.PressureUnit) (tu : Spec.TemperatureUnit),
    let this1 :=
      setTemperatureUnit (setPressureUnit this (Spec.pressure_selector pu))
                         (Spec.temperature_selector tu) in
    let this2 := snd (fst (readData dbl this1 bus)) in
    status this1 = status this
    /\ pressure this1 = pressure this
    /\ temperature this1 = temperature this
    /\ pressure this2
       = Some (Spec.convertPressure dbl pu (transferPressure dbl this (raw_p this2)))
    /\ temperature this2
       = Some (Spec.convertTemperature dbl tu (transferTemperature dbl this (raw_t this2))).
Proof.
  intros dbl B W this bus pu tu this1 this2.
  split; [destruct this; reflexivity|].
  split; [destruct this; reflexivity|].
  split; [destruct this; reflexivity|].
  unfold this2. rewrite object_after_readData.
  destruct (store_reading_fields dbl (frame_of bus) this1)
    as (_ & _ & Hrp & Hrt & Hp & Ht & _).
  rewrite Hp, Ht, Hrp, Hrt.
  rewrite (convertPressure_table dbl this1 pu) by (destruct this; reflexivity).
  rewrite (convertTemperature_table dbl this1 tu) by (destruct this; reflexivity).
  split; destruct this; reflexivity.
Qed.

(** ** Signs and not-a-number in the arithmetic *)

Lemma shr_1_nonneg (mrs : shr_record) : 0 <= shr_m mrs -> 0 <= shr_m (shr_1 mrs).
Proof.
  destruct mrs as [m r s]. destruct m as [|p|p]; cbn [shr_m]; intros H.
  - cbn. lia.
  - destruct p; cbn; lia.
  - lia.
Qed.

Lemma iter_shr_1_nonneg (p : positive) :
  forall mrs, 0 <= shr_m mrs -> 0 <= shr_m (iter_pos shr_1 p mrs).
Proof.
  induction p as [p IH|p IH|]; intros mrs H; cbn [iter_pos].
  - apply IH, IH, shr_1_nonneg, H.
  - apply IH, IH, H.
  - apply shr_1_nonneg, H.
Qed.

Lemma shr_fexp_nonneg (p emax m e : Z) (l : location) :
  0 <= m -> 0 <= shr_m (fst (shr_fexp p emax m e l)).
Proof.
  intros H. unfold shr_fexp, shr.
  assert (H0 : 0 <= shr_m (shr_record_of_loc m l)) by (destruct l as [|[]]; exact H).
  destruct (fexp p emax (Zdigits2 m + e) - e) as [|n|n]; cbn [fst]; try exact H0.
  apply iter_shr_1_nonneg, H0.
Qed.

Lemma round_nearest_even_nonneg (m : Z) (l : location) :
  0 <= m -> 0 <= round_nearest_even m l.
Proof. intros H. destruct l as [|[]]; cbn; try destruct (Z.even m); lia. Qed.

(** Rounding a non-negative mantissa gives a zero, a finite number or an
    infinity of the sign it is given, never a NaN. *)
Lemma binary_round_aux_signed (p emax : Z) (sx : bool) (mx ex : Z) (lx : location) :
  0 <= mx -> signed sx (binary_round_aux p emax sx mx ex lx) = true.
Proof.
  intros H. unfold binary_round_aux.
  pose proof (shr_fexp_nonneg p emax mx ex lx H) as H1.
  destruct (shr_fexp p emax mx ex lx) as [mrs' e']. cbn [fst] in H1.
  pose proof (shr_fexp_nonneg p emax _ e' loc_Exact
                (round_nearest_even_nonneg _ (loc_of_shr_record mrs') H1)) as H2.
  destruct (shr_fexp p emax _ e' loc_Exact) as [mrs'' e'']. cbn [fst] in H2.
  destruct (shr_m mrs'') as [|m|m].
  - apply eqb_reflx.
  - destruct (e'' <=? emax - p); apply eqb_reflx.
  - lia.
Qed.

Lemma binary_round_signed (p emax : Z) (sx : bool) (mx : positive) (ex : Z) :
  signed sx (binary_round p emax sx mx ex) = true.
Proof.
  unfold binary_round. destruct (shl_align mx ex _) as [mz ez].
  apply binary_round_aux_signed. lia.
Qed.

Lemma binary_normalize_not_nan (p emax m e : Z) (szero : bool) :
  is_nan (binary_normalize p emax m e szero) = false.
Proof.
  destruct m as [|q|q]; cbn [binary_normalize]; [reflexivity| |].
  - pose proof (binary_round_signed p emax false q e) as H.
    destruct (binary_round p emax false q e); try reflexivity; discriminate.
  - pose proof (binary_round_signed p emax true q e) as H.
    destruct (binary_round p emax true q e); try reflexivity; discriminate.
Qed.

Lemma signed_not_nan (s : bool) (x : spec_float) : signed s x = true -> is_nan x = false.
Proof. destruct x; try reflexivity; discriminate. Qed.

Lemma not_nan_signed (x : spec_float) :
  is_nan x = false -> exists s : bool, signed s x = true.
Proof.
  destruct x as [s|s| |s m e]; try discriminate; intros _; exists s; apply eqb_reflx.
Qed.

Lemma round_signed (f : FP.format) (s : bool) (x : spec_float) :
  signed s x = true -> signed s (FP.round f x) = true.
Proof.
  destruct x as [s'|s'| |s' m e]; cbn [FP.round]; intros H; try exact H.
  cbn [signed] in H. apply eqb_prop in H. subst s'.
  destruct s; cbn [cond_Zopp Z.opp binary_normalize]; apply binary_round_signed.
Qed.

Lemma round_nan (f : FP.format) (x : spec_float) : is_nan (FP.round f x) = is_nan x.
Proof.
  destruct x as [s|s| |s m e]; try reflexivity.
  cbn [FP.round is_nan]. apply binary_normalize_not_nan.
Qed.

Lemma promote_signed (f : FP.format) (s : bool) (x : spec_float) :
  signed s x = true -> signed s (FP.promote f x) = true.
Proof.
  destruct x as [s'|s'| |s' m e]; cbn [FP.promote]; intros H; try exact H.
  destruct (shl_align m e _) as [m' e']. exact H.
Qed.

Lemma promote_nan (f : FP.format) (x : spec_float) : is_nan (FP.promote f x) = is_nan x.
Proof.
  destruct x as [s|s| |s m e]; try reflexivity.
  cbn [FP.promote]. destruct (shl_align m e _) as [m' e']. reflexivity.
Qed.

(** A finite number that is not zero times a number: the signs multiply. *)
Lemma mul_finite_signed (f : FP.format) (sx : bool) (mx : positive) (ex : Z)
      (sy : bool) (y : spec_float) :
  signed sy y = true ->
  signed (xorb sx sy) (FP.mul f (S754_finite sx mx ex) y) = true.
Proof.
  destruct y as [s|s| |s m e]; cbn [signed]; intros H; try discriminate;
    apply eqb_prop in H; subst s; unfold FP.mul; cbn [SFmul signed];
    try apply eqb_reflx.
  apply binary_round_aux_signed. lia.
Qed.

Lemma mul_finite_nan (f : FP.format) (sx : bool) (mx : positive) (ex : Z) (y : spec_float) :
  is_nan (FP.mul f (S754_finite sx mx ex) y) = is_nan y.
Proof.
  destruct (is_nan y) eqn:Hy.
  - destruct y; try discriminate. reflexivity.
  - destruct (not_nan_signed y Hy) as [sy Hs].
    apply (signed_not_nan (xorb sx sy)), mul_finite_signed, Hs.
Qed.

Lemma mul_comm (f : FP.format) (x y : spec_float) : FP.mul f x y = FP.mul f y x.
Proof. apply SFmul_comm. Qed.

(** A number plus a finite number that is not zero is a number. *)
Lemma add_finite_not_nan (f : FP.format) (x : spec_float) (sy : bool) (my : positive) (ey : Z) :
  is_nan x = false -> is_nan (FP.add f x (S754_finite sy my ey)) = false.
Proof.
  destruct x as [s|s| |s m e]; intros H; try discriminate; unfold FP.add; cbn [SFadd];
    try reflexivity.
  apply binary_normalize_not_nan.
Qed.

Lemma add_nan (f : FP.format) (y : spec_float) : FP.add f S754_nan y = S754_nan.
Proof. destruct y; reflexivity. Qed.

(** ** Unit conversion keeps signs and numbers *)

Lemma literal_positive (dbl : FP.double_format) (m : positive) (k : nat) :
  In (m, k) literals -> exists mm ee, dec dbl m k = S754_finite false mm ee.
Proof.
  unfold literals. cbn [In]. intros H.
  repeat (destruct H as [H|H];
          [injection H as <- <-; destruct dbl; eexists; eexists; vm_compute; reflexivity|]).
  destruct H.
Qed.

(** Scaling by a positive finite constant, as the two pressure conversions
    do: [to_float (to_double x * c)]. *)
Lemma scale_by_positive (dbl : FP.double_format) (mc : positive) (ec : Z) (x : float) :
  let r := to_float (d_mul dbl (to_double dbl x) (S754_finite false mc ec)) in
  is_nan r = is_nan x
  /\ (forall s, signed s x = true -> signed s r = true)
  /\ (FP.is_zero x = true -> FP.is_zero r = true).
Proof.
  intros r. unfold r, to_float, d_mul, to_double. rewrite mul_comm. split; [|split].
  - rewrite round_nan, mul_finite_nan, promote_nan. reflexivity.
  - intros s Hs. apply round_signed.
    replace s with (xorb false s) at 1 by reflexivity.
    apply mul_finite_signed, promote_signed, Hs.
  - destruct x; try discriminate. reflexivity.
Qed.

Lemma convertPressure_nan (dbl : FP.double_format) (this : object) (psi : float) :
  is_nan (convertPressure dbl this psi) = is_nan psi.
Proof.
  unfold convertPressure.
  destruct (literal_positive dbl 689475729 5) as (mp & ep & Hp);
    [unfold literals; cbn; tauto|].
  destruct (literal_positive dbl 27679904 6) as (mh & eh & Hh);
    [unfold literals; cbn; tauto|].
  destruct (pressure_unit this =? PASCAL); [rewrite Hp; apply scale_by_positive|].
  destruct (pressure_unit this =? IN_H2O); [rewrite Hh; apply scale_by_positive|].
  reflexivity.
Qed.

(** X6.  Converting a pressure never turns a number into a NaN or a NaN into a
    number, never changes the sign, and keeps a zero a zero, for every
    selector, enumerated or not. *)
Theorem convertPressure_keeps_sign :
  forall (dbl : FP.double_format) (this : object) (psi : float),
    is_nan (convertPressure dbl this psi) = is_nan psi
    /\ (forall s, signed s psi = true -> signed s (convertPressure dbl this psi) = true)
    /\ (FP.is_zero psi = true -> FP.is_zero (convertPressure dbl this psi) = true).
Proof.
  intros dbl this psi. unfold convertPressure.
  destruct (literal_positive dbl 689475729 5) as (mp & ep & Hp);
    [unfold literals; cbn; tauto|].
  destruct (literal_positive dbl 27679904 6) as (mh & eh & Hh);
    [unfold literals; cbn; tauto|].
  destruct (pressure_unit this =? PASCAL).
  - rewrite Hp. apply scale_by_positive.
  - destruct (pressure_unit this =? IN_H2O).
    + rewrite Hh. apply scale_by_positive.
    + repeat split; auto.
Qed.

(** Converting a temperature gives a NaN exactly when it is given one, for
    every selector: the conversions to Fahrenheit and Kelvin add a finite
    constant, which cannot cancel to a NaN. *)
Lemma convertTemperature_nan (dbl : FP.double_format) (this : object) (c : float) :
  is_nan (convertTemperature dbl this c) = is_nan c.
Proof.
  unfold convertTemperature.
  destruct (literal_positive dbl 18 1) as (m18 & e18 & H18); [unfold literals; cbn; tauto|].
  destruct (literal_positive dbl 320 1) as (m32 & e32 & H32); [unfold literals; cbn; tauto|].
  destruct (literal_positive dbl 27315 2) as (mk & ek & Hk); [unfold literals; cbn; tauto|].
  destruct (temperature_unit this =? FAHRENHEIT); [|destruct (temperature_unit this =? KELVIN)].
  - rewrite H18, H32. unfold to_float, d_add, d_mul, to_double.
    rewrite round_nan, mul_comm. destruct (is_nan c) eqn:Hc.
    + destruct c; try discriminate. reflexivity.
    + apply add_finite_not_nan. rewrite mul_finite_nan, promote_nan. exact Hc.
  - rewrite Hk. unfold to_float, d_add, to_double.
    rewrite round_nan. destruct (is_nan c) eqn:Hc.
    + destruct c; try discriminate. reflexivity.
    + apply add_finite_not_nan. rewrite promote_nan. exact Hc.
  - reflexivity.
Qed.

(** ** The pressure transfer function: zero, signs and NaN *)

Lemma factor_checked (dbl : FP.double_format) (zeroReferenceCode : Z) :
  zeroReferenceCode = 1638 \/ zeroReferenceCode = 8192 ->
  forall_below 16384 (factor_test dbl zeroReferenceCode (dec dbl 125 2)) = true.
Proof. intros [->| ->]; destruct dbl; vm_cast_no_check (eq_refl true). Qed.

(** The [double] that [transferPressure] multiplies the span by: +0 at the
    zero reference code, otherwise a finite number that is not zero and is
    negative exactly below the zero reference code. *)
Lemma pressure_factor (dbl : FP.double_format) (T : SensorType) (code : Z) :
  0 <= code <= 16383 ->
  let factor :=
    d_mul dbl (dec dbl 125 2)
      (to_double dbl
         (f_div (f_sub (f_of_int code) (f_of_int (Spec.zeroReferenceCode T)))
                (f_of_int FULL_SCALE_REF))) in
  (code = Spec.zeroReferenceCode T -> factor = S754_zero false)
  /\ (code <> Spec.zeroReferenceCode T ->
      exists m e, factor = S754_finite (code <? Spec.zeroReferenceCode T) m e).
Proof.
  intros Hcode factor. unfold factor. rewrite code_fraction by assumption.
  destruct (full_scale_double dbl) as (d & -> & Hd & Hpow).
  destruct (literal_positive dbl 125 2) as (mk & ek & Hk); [unfold literals; cbn; tauto|].
  split.
  - intros ->. rewrite Z.sub_diag, Hk. reflexivity.
  - intros Hne.
    assert (Hz : Spec.zeroReferenceCode T = 1638 \/ Spec.zeroReferenceCode T = 8192)
      by (destruct T; simpl; auto).
    pose proof (forall_below_spec _ _ (factor_checked dbl _ Hz) code ltac:(lia)) as H.
    unfold factor_test in H.
    assert (Hprec : 1 < FP.prec (FP.dfmt dbl)) by (destruct dbl; reflexivity).
    destruct (d_of_int dbl _) as [s|s| |s m e]; try discriminate.
    + apply Z.eqb_eq in H. contradiction.
    + apply andb_true_iff in H. destruct H as [H Hmul].
      apply andb_true_iff in H. destruct H as [_ Hlow].
      unfold d_div. rewrite (div_lowers_by_14 (FP.dfmt dbl)) by assumption.
      destruct (d_mul dbl (dec dbl 125 2) (S754_finite s m (e - 14)))
        as [s'|s'| |s' m' e']; try discriminate.
      apply eqb_prop in Hmul. subst s'. exists m', e'. reflexivity.
Qed.



Lemma zero_mul_nan (f : FP.format) (s : bool) (y : spec_float) :
  is_nan (FP.mul f (S754_zero s) y) = negb (FP.is_finite y).
Proof. destruct y; reflexivity. Qed.

Lemma promote_is_finite (f : FP.format) (x : spec_float) :
  FP.is_finite (FP.promote f x) = FP.is_finite x.
Proof.
  destruct x as [s|s| |s m e]; try reflexivity.
  cbn [FP.promote]. destruct (shl_align m e _) as [m' e']. reflexivity.
Qed.







(** ** The temperature transfer function: order and range *)

Lemma temperature_steps_checked (dbl : FP.double_format) :
  forall_below 2047
    (temperature_step_test dbl (d_div dbl (dec dbl 2000 1) (dec dbl 20470 1)) (dec dbl 500 1))
  = true.
Proof. destruct dbl; vm_cast_no_check (eq_refl true). Qed.

Lemma value_lt_trans (x y z : spec_float) : value_lt x y -> value_lt y z -> value_lt x z.
Proof.
  intros (u & v & Hx & Hy & Huv) (v' & w & Hy' & Hz & Hvw).
  rewrite Hy in Hy'. injection Hy' as <-.
  exists u, w. repeat split; try assumption. apply (Qlt_trans _ v); assumption.
Qed.

Lemma temperature_step (dbl : FP.double_format) (this : object) (code : Z) :
  0 <= code < 2047 ->
  value_lt (transferTemperature dbl this code) (transferTemperature dbl this (code + 1)).
Proof.
  intros Hcode.
  pose proof (forall_below_spec _ _ (temperature_steps_checked dbl) code Hcode) as H.
  unfold temperature_step_test, temperature_value in H.
  rewrite !transferTemperature_refines by lia. unfold Spec.temperatureC.
  destruct (FP.to_Q _) as [u|] eqn:Hu; [|discriminate].
  destruct (FP.to_Q (to_float (d_sub dbl (d_mul dbl (d_of_int dbl (code + 1)) _) _)))
    as [v|] eqn:Hv; [|discriminate].
  exists u, v. repeat split; try assumption.
  apply negb_true_iff in H. apply Qnot_le_lt. intros Hle.
  apply Qle_bool_iff in Hle. congruence.
Qed.

Lemma temperature_steps (dbl : FP.double_format) (this : object) (n : nat) :
  forall a : Z,
    0 <= a -> a + 1 + Z.of_nat n <= 2047 ->
    value_lt (transferTemperature dbl this a)
             (transferTemperature dbl this (a + 1 + Z.of_nat n)).
Proof.
  induction n as [|n IH]; intros a Ha Hb.
  - rewrite Z.add_0_r. apply temperature_step. lia.
  - apply (value_lt_trans _ (transferTemperature dbl this (a + 1 + Z.of_nat n))).
    + apply IH; lia.
    + replace (a + 1 + Z.of_nat (S n)) with (a + 1 + Z.of_nat n + 1) by lia.
      apply temperature_step. lia.
Qed.

Lemma transferTemperature_increasing_aux (dbl : FP.double_format) (this : object) (a b : Z) :
  0 <= a -> a < b -> b <= 2047 ->
  value_lt (transferTemperature dbl this a) (transferTemperature dbl this b).
Proof.
  intros Ha Hab Hb.
  replace b with (a + 1 + Z.of_nat (Z.to_nat (b - a - 1))) by lia.
  apply temperature_steps; lia.
Qed.

(** X10.  The temperature is strictly increasing in the code: of two 11-bit codes
    the larger gives the larger temperature, with no two codes mapped to
    the same [float]. *)
Theorem transferTemperature_increasing :
  forall (dbl : FP.double_format) (this : object) (a b : Z),
    0 <= a -> a < b -> b <= 2047 ->
    value_lt (transferTemperature dbl this a) (transferTemperature dbl this b).
Proof.
  intros dbl this a b Ha Hab Hb.
  destruct (Z.eq_dec b (a + 1)) as [->|Hfar].
  - apply temperature_step. lia.
  - apply (value_lt_trans _ (transferTemperature dbl this (a + 1))).
    + apply temperature_step. lia.
    + apply transferTemperature_increasing_aux; lia.
Qed.

Lemma transferTemperature_increasing_witness :
  value_lt (transferTemperature FP.Double32 AllSensors_DLV_030A 511)
           (transferTemperature FP.Double32 AllSensors_DLV_030A 512).
Proof.
  apply (transferTemperature_increasing FP.Double32 AllSensors_DLV_030A 511 512); lia.
Defined.

Lemma temperature_end_values (dbl : FP.double_format) (this : object) :
  FP.to_Q (transferTemperature dbl this 0) = Some (-13107200 # 262144)
  /\ FP.to_Q (transferTemperature dbl this 2047) = Some (9830400 # 65536).
Proof.
  destruct (transferTemperature_ends dbl this) as [-> ->]. split; reflexivity.
Qed.

(** X11.  Every 11-bit code gives a finite temperature between -50 and 150
    degrees Celsius. *)
Theorem transferTemperature_range :
  forall (dbl : FP.double_format) (this : object) (temperatureCode : Z),
    0 <= temperatureCode <= 2047 ->
    exists v : Q,
      FP.to_Q (transferTemperature dbl this temperatureCode) = Some v
      /\ (-50 <= v)%Q /\ (v <= 150)%Q.
Proof.
  intros dbl this code Hcode.
  destruct (temperature_end_values dbl this) as [Hlo Hhi].
  assert (Hfirst : exists v, FP.to_Q (transferTemperature dbl this code) = Some v
                             /\ (-50 <= v)%Q).
  { destruct (Z.eq_dec code 0) as [->|Hne].
    - eexists. split; [exact Hlo|]. unfold Qle. simpl. lia.
    - destruct (transferTemperature_increasing_aux dbl this 0 code) as (u & v & Hu & Hv & Huv);
        try lia.
      rewrite Hlo in Hu. injection Hu as <-.
      exists v. split; [exact Hv|]. apply Qlt_le_weak.
      apply (Qle_lt_trans _ (-13107200 # 262144)); [unfold Qle; simpl; lia|exact Huv]. }
  destruct Hfirst as (v & Hv & Hge). exists v. split; [exact Hv|]. split; [exact Hge|].
  destruct (Z.eq_dec code 2047) as [->|Hne].
  - rewrite Hhi in Hv. injection Hv as <-. unfold Qle. simpl. lia.
  - destruct (transferTemperature_increasing_aux dbl this code 2047) as (u & w & Hu & Hw & Huw);
      try lia.
    rewrite Hv in Hu. injection Hu as <-. rewrite Hhi in Hw. injection Hw as <-.
    apply Qlt_le_weak. apply (Qlt_le_trans _ (9830400 # 65536)); [exact Huw|].
    unfold Qle. simpl. lia.
Qed.

Lemma transferTemperature_range_witness :
  exists v : Q,
    FP.to_Q (transferTemperature FP.Double64 AllSensors_DLV_060G 1000) = Some v
    /\ (-50 <= v)%Q /\ (v <= 150)%Q.
Proof.
  apply (transferTemperature_range FP.Double64 AllSensors_DLV_060G 1000). lia.
Defined.

(** ** Stored values are numbers *)

Lemma to_Q_not_nan (x : spec_float) (v : Q) : FP.to_Q x = Some v -> is_nan x = false.
Proof. destruct x; try reflexivity; discriminate. Qed.

Lemma transferTemperature_number (dbl : FP.double_format) (this : object) (code : Z) :
  0 <= code <= 2047 -> is_nan (transferTemperature dbl this code) = false.
Proof.
  intros Hcode. destruct (temperature_end_values dbl this) as [Hlo Hhi].
  destruct (Z.eq_dec code 0) as [->|Hne]; [exact (to_Q_not_nan _ _ Hlo)|].
  destruct (transferTemperature_increasing_aux dbl this 0 code) as (u & v & _ & Hv & _);
    try lia.
  exact (to_Q_not_nan _ _ Hv).
Qed.

Lemma transferPressure_number (dbl : FP.double_format) (this : object)
      (T : SensorType) (code : Z) :
  pressure_zero_ref this = f_of_int (Spec.zeroReferenceCode T) ->
  FP.is_finite (pressure_range this) = true ->
  0 <= code <= 16383 ->
  is_nan (transferPressure dbl this code) = false.
Proof.
  intros Hz Hfin Hcode. unfold transferPressure. rewrite Hz.
  destruct (pressure_factor dbl T code Hcode) as [Hzero Hfinite].
  unfold to_float. rewrite round_nan.
  destruct (Z.eq_dec code (Spec.zeroReferenceCode T)) as [Heq|Hne].
  - rewrite (Hzero Heq). unfold d_mul, to_double.
    rewrite zero_mul_nan, promote_is_finite, Hfin. reflexivity.
  - destruct (Hfinite Hne) as (m & e & ->). unfold d_mul, to_double.
    rewrite mul_finite_nan, promote_nan.
    destruct (pressure_range this); try reflexivity; discriminate.
Qed.

Section Numbers.
Variable dbl : FP.double_format.
Context {B : Type} {W : TwoWire B}.
Variable T : SensorType.

Lemma store_reading_numbers (f : uint8x4) (this : object) :
  is_frame f -> calibrated T this -> numbers_only (store_reading dbl f this).
Proof.
  intros Hf [Hz Hfin].
  destruct (store_reading_fields dbl f this) as (_ & _ & _ & _ & Hp & Ht & _).
  assert (Hheld : is_frame (raw_data (set_raw_data f this)))
    by (rewrite DecoderFacts.raw_data_set_raw_data; exact Hf).
  destruct (DecoderFacts.extractIntegerPressure_frame _ Hheld) as [_ Hprange].
  destruct (DecoderFacts.extractIntegerTemperature_frame _ Hheld) as [_ Htrange].
  split.
  - intros p Hp'. rewrite Hp in Hp'. injection Hp' as <-.
    rewrite convertPressure_nan. apply (transferPressure_number dbl this T); assumption.
  - intros t Ht'. rewrite Ht in Ht'. injection Ht' as <-.
    rewrite convertTemperature_nan. apply transferTemperature_number; assumption.
Qed.

Lemma step_numbers (st : object * B) (op : operation) :
  calibrated T (fst st) -> numbers_only (fst st) ->
  calibrated T (fst (step dbl st op)) /\ numbers_only (fst (step dbl st op)).
Proof.
  intros [Hz Hfin] Hnum. split.
  - destruct (step_keeps_calibration dbl st op) as [Hz' Hr'].
    split; [rewrite Hz'; exact Hz|rewrite Hr'; exact Hfin].
  - rewrite step_object. destruct op as [|u|u].
    + apply store_reading_numbers; [apply frame_of_is_frame|split; assumption].
    + destruct (fst st); exact Hnum.
    + destruct (fst st); exact Hnum.
Qed.

Lemma run_numbers (ops : list operation) (st : object * B) :
  calibrated T (fst st) -> numbers_only (fst st) -> numbers_only (fst (run dbl ops st)).
Proof.
  revert st. induction ops as [|op ops IH]; intros st Hc Hn; [exact Hn|].
  cbn [run fold_left]. destruct (step_numbers st op Hc Hn) as [Hc' Hn'].
  apply IH; assumption.
Qed.

End Numbers.

(** X12.  A sensor whose span is finite never stores a NaN: after any sequence of
    [readData], [setPressureUnit] and [setTemperatureUnit], whatever the
    bus returns and whichever selectors are set, the stored pressure and
    the stored temperature are numbers. *)
Theorem session_never_stores_nan :
  forall (dbl : FP.double_format) (B : Type) (W : TwoWire B)
         (T : SensorType) (R : float) (ops : list operation) (bus : B),
    FP.is_finite (pressure_range (AllSensors_DLV T R)) = true ->
    numbers_only (fst (run dbl ops (AllSensors_DLV T R, bus))).
Proof.
  intros dbl B W T R ops bus Hfin.
  apply (run_numbers dbl T).
  - cbn [fst]. destruct (constructor_constants T R) as [Hz _]. split; assumption.
  - cbn [fst]. split; intros x Hx; destruct T; discriminate.
Qed.

Lemma session_never_stores_nan_witness :
  numbers_only
    (fst (run FP.Double64
            [ReadData; SetPressureUnit PASCAL; SetTemperatureUnit 0; ReadData]
            (AllSensors_DLV_060D,
             ScriptedBus.of_script [0x20; 0x00; 0x00; 0x00; 0xFF; 0xFF]))).
Proof.
  apply (session_never_stores_nan FP.Double64 ScriptedBus.t ScriptedBus_TwoWire
           DIFFERENTIAL (f_of_int 60)).
  reflexivity.
Defined.

(** ** The decoder as arithmetic: every triple has a frame, and only one
    up to the five unused bits *)

Lemma land_shiftl_low (x b n : Z) : 0 <= n -> 0 <= b < 2 ^ n -> Z.land (Z.shiftl x n) b = 0.
Proof.
  intros Hn Hb. apply Z.bits_inj'. intros i Hi.
  rewrite Z.land_spec, Z.bits_0.
  destruct (Z.lt_ge_cases i n) as [Hlt|Hge].
  - rewrite Z.shiftl_spec_low by assumption. reflexivity.
  - rewrite <- (Z.mod_small b (2 ^ n)) by assumption.
    rewrite Z.mod_pow2_bits_high by lia. apply andb_false_r.
Qed.

Lemma lor_shiftl_low (x b n : Z) :
  0 <= n -> 0 <= b < 2 ^ n -> Z.lor (Z.shiftl x n) b = x * 2 ^ n + b.
Proof.
  intros Hn Hb. pose proof (Z.add_lor_land (Z.shiftl x n) b) as H.
  rewrite land_shiftl_low in H by assumption.
  rewrite Z.shiftl_mul_pow2 in * by assumption. lia.
Qed.

Lemma fields_as_arithmetic (b0 b1 b2 b3 : Z) :
  is_uint8 b0 -> is_uint8 b1 -> is_uint8 b2 -> is_uint8 b3 ->
  Spec.statusCode b0 = b0 / 64
  /\ Spec.pressureCode b0 b1 = (b0 mod 64) * 256 + b1
  /\ Spec.temperatureCode b2 b3 = b2 * 8 + b3 / 32.
Proof.
  unfold is_uint8. intros H0 H1 H2 H3. split; [|split].
  - unfold Spec.statusCode. change 3 with (Z.ones 2).
    rewrite Z.land_ones, Z.shiftr_div_pow2 by lia.
    change (2 ^ 6) with 64. change (2 ^ 2) with 4.
    apply Z.mod_small. Z.to_euclidean_division_equations. lia.
  - unfold Spec.pressureCode. change 0x3F with (Z.ones 6).
    rewrite Z.land_ones by lia. rewrite lor_shiftl_low by (simpl; lia). reflexivity.
  - unfold Spec.temperatureCode. rewrite Z.shiftr_land.
    change (Z.shiftr 0xE0 5) with (Z.ones 3).
    rewrite Z.land_ones, Z.shiftr_div_pow2 by lia.
    change (2 ^ 5) with 32. change (2 ^ 3) with 8.
    rewrite Z.mod_small by (Z.to_euclidean_division_equations; lia).
    rewrite lor_shiftl_low; [reflexivity|lia|].
    change (2 ^ 3) with 8. Z.to_euclidean_division_equations. lia.
Qed.

Lemma decoded_as_arithmetic (this : object) (f : uint8x4) :
  is_frame f ->
  decoded (set_raw_data f this)
  = (cell0 f / 64, (cell0 f mod 64) * 256 + cell1 f, cell2 f * 8 + cell3 f / 32).
Proof.
  intros Hf.
  assert (Hraw : is_frame (raw_data (set_raw_data f this)))
    by (rewrite DecoderFacts.raw_data_set_raw_data; exact Hf).
  destruct (DecoderFacts.extractIntegerPressure_frame _ Hraw) as [Hp _].
  destruct (DecoderFacts.extractIntegerTemperature_frame _ Hraw) as [Ht _].
  unfold decoded. rewrite DecoderFacts.extractStatus_frame, Hp, Ht.
  rewrite DecoderFacts.raw_data_set_raw_data.
  destruct Hf as (H0 & H1 & H2 & H3).
  destruct (fields_as_arithmetic _ _ _ _ H0 H1 H2 H3) as (-> & -> & ->). reflexivity.
Qed.

(** X13.  The ranges of the three fields are attained in full and independently:
    every status in 0..3, pressure code in [0, 16383] and temperature code
    in [0, 2047] is what the decoder extracts from some frame. *)
Theorem decoder_onto :
  forall (this : object) (statusCode pressureCode temperatureCode : Z),
    0 <= statusCode <= 3 ->
    0 <= pressureCode <= 16383 ->
    0 <= temperatureCode <= 2047 ->
    exists frame : uint8x4,
      is_frame frame
      /\ decoded (set_raw_data frame this) = (statusCode, pressureCode, temperatureCode).
Proof.
  intros this st p t Hst Hp Ht.
  set (frame := Array4 (st * 64 + p / 256) (p mod 256) (t / 8) (t mod 8 * 32)).
  assert (Hf : is_frame frame).
  { unfold frame, is_frame, is_uint8. cbn [cell0 cell1 cell2 cell3].
    repeat split; Z.to_euclidean_division_equations; lia. }
  exists frame. split; [exact Hf|].
  rewrite decoded_as_arithmetic by exact Hf. unfold frame. cbn [cell0 cell1 cell2 cell3].
  f_equal; [f_equal|]; Z.to_euclidean_division_equations; lia.
Qed.

Lemma decoder_onto_witness :
  exists frame : uint8x4,
    is_frame frame /\ decoded (set_raw_data frame AllSensors_DLV_005D) = (2, 8192, 1023).
Proof.
  apply (decoder_onto AllSensors_DLV_005D 2 8192 1023); lia.
Defined.

(** X14.  Two frames decode to the same three fields exactly when they agree on
    bytes 0, 1 and 2 and on the three top bits of byte 3: nothing of the 27
    used bits is lost, and the five low bits of byte 3 are never looked
    at. *)
Theorem decoder_one_to_one :
  forall (this : object) (f g : uint8x4),
    is_frame f -> is_frame g ->
    (decoded (set_raw_data f this) = decoded (set_raw_data g this)
     <-> cell0 f = cell0 g /\ cell1 f = cell1 g /\ cell2 f = cell2 g
         /\ cell3 f / 32 = cell3 g / 32).
Proof.
  intros this f g Hf Hg.
  rewrite !decoded_as_arithmetic by assumption.
  destruct Hf as (F0 & F1 & F2 & F3). destruct Hg as (G0 & G1 & G2 & G3).
  unfold is_uint8 in *. split.
  - intros H. injection H as Hs Hp Ht.
    repeat split; Z.to_euclidean_division_equations; lia.
  - intros (-> & -> & -> & H3). rewrite H3. reflexivity.
Qed.

Lemma decoder_one_to_one_witness :
  decoded (set_raw_data (Array4 0x12 0x34 0x56 0x60) AllSensors_DLV_005D)
  = decoded (set_raw_data (Array4 0x12 0x34 0x56 0x7F) AllSensors_DLV_005D).
Proof.
  apply (decoder_one_to_one AllSensors_DLV_005D
           (Array4 0x12 0x34 0x56 0x60) (Array4 0x12 0x34 0x56 0x7F)).
  - unfold is_frame, is_uint8; simpl; lia.
  - unfold is_frame, is_uint8; simpl; lia.
  - repeat split.
Defined.

(** ** Acquisitions do not accumulate *)

Lemma store_reading_twice (dbl : FP.double_format) (f g : uint8x4) (this : object) :
  store_reading dbl g (store_reading dbl f this) = store_reading dbl g this.
Proof. destruct this. reflexivity. Qed.

(** X15.  An acquisition leaves no trace of the ones before it: the whole object
    after [readData], buffer and raw codes included, is the same whether or
    not another [readData] came first, on whatever bus. *)
Theorem readData_forgets_earlier_reads :
  forall (dbl : FP.double_format) (B : Type) (W : TwoWire B)
         (this : object) (earlier bus : B),
    snd (fst (readData dbl (snd (fst (readData dbl this earlier))) bus))
    = snd (fst (readData dbl this bus)).
Proof.
  intros dbl B W this earlier bus.
  rewrite !object_after_readData. apply store_reading_twice.
Qed.

(** ** The pre-configured parts *)


